(** * A publication-list generator: [pub/publications-manage.py]

    A shallow embedding of the normalisation / classification / rendering
    pipeline of [pub/publications-manage.py], and the properties of it
    that its specification states.

    Python values are modelled as follows.
    - A [str] is the list of its Unicode code points ([pystr]).
    - A bibliography entry (a [dict] from field name to [str]) is a finite
      map [gmap pystr pystr]; the entry type and the citation key are the
      ordinary keys [ENTRYTYPE] and [ID], as [bibtexparser] stores them.
    - A [BibDatabase] is the list of its [entries].
    - Exceptions are the values of [exn]; a function that may raise
      returns a [result].
    - What [main] does to the outside world (files, standard output) is a
      trace of [event]s. *)

From Stdlib Require Import String Ascii NArith List Lia.
From Stdlib Require Import Sorting.Sorted Sorting.Permutation.
From stdpp Require Import gmap list.

Local Open Scope N_scope.
Local Open Scope list_scope.

(** ** Strings *)

Abbreviation char := N (only parsing).
Abbreviation pystr := (list N) (only parsing).

(** An ASCII literal as a Python string. *)
Definition py (s : string) : pystr := map N_of_ascii (list_ascii_of_string s).

(** U+2013 EN DASH and U+002D HYPHEN-MINUS. *)
Definition endash : char := 8211.
Definition hyphen : char := 45.
Definition newline : char := 10.
Definition lbrace : char := 123.
Definition rbrace : char := 125.

(** [\s] of the [re] module on a [str] pattern, which is [str.isspace]:
    U+0009..U+000D, U+001C..U+0020, U+0085, U+00A0, U+1680,
    U+2000..U+200A, U+2028, U+2029, U+202F, U+205F, U+3000. *)
Definition isspace (c : char) : bool :=
  ((9 <=? c) && (c <=? 13)) || ((28 <=? c) && (c <=? 32))
  || (c =? 133) || (c =? 160) || (c =? 5760)
  || ((8192 <=? c) && (c <=? 8202))
  || (c =? 8232) || (c =? 8233) || (c =? 8239) || (c =? 8287) || (c =? 12288).

(** The character class [[-–]]. *)
Definition isdash (c : char) : bool := (c =? hyphen) || (c =? endash).

Definition isbrace (c : char) : bool := (c =? lbrace) || (c =? rbrace).

(** The case tables of the Unicode database, which [str.isupper] (on one
    character) and [str.lower] consult. *)
Class Unicode := {
  isupper : char -> bool;
  lower : pystr -> pystr
}.

(** The case tables restricted to ASCII: exact on every string whose
    characters are all below U+0080, the identity on the others. *)
Definition ascii_isupper (c : char) : bool := (65 <=? c) && (c <=? 90).
Definition ascii_lower_char (c : char) : char :=
  if ascii_isupper c then c + 32 else c.
Definition ascii_case : Unicode :=
  {| isupper := ascii_isupper; lower := map ascii_lower_char |}.

Fixpoint span_len (p : char -> bool) (s : pystr) : nat :=
  match s with
  | c :: rest => if p c then S (span_len p rest) else O
  | [] => O
  end.

(** [s.startswith(t)] *)
Fixpoint startswith (t s : pystr) : bool :=
  match t, s with
  | [], _ => true
  | a :: t', b :: s' => (a =? b) && startswith t' s'
  | _ :: _, [] => false
  end.

(** [sep.join(l)] *)
Fixpoint join (sep : pystr) (l : list pystr) : pystr :=
  match l with
  | [] => []
  | [x] => x
  | x :: rest => x ++ sep ++ join sep rest
  end.

(** *** Scanning substitution

    [re.sub(pattern, repl, s)] and [s.replace(old, new)] scan [s] from
    left to right; at each position not inside an earlier match they try
    the pattern, and on a match they emit the replacement and resume
    behind the match.  [m t] is the length of the match of the pattern at
    the head of [t], when there is one.  [skip] counts the characters of
    the current match still to be passed over.  All patterns of the
    program match at least one character. *)
Fixpoint sub_scan (m : pystr -> option nat) (repl : pystr)
    (skip : nat) (s : pystr) : pystr :=
  match s with
  | [] => []
  | c :: rest =>
    match skip with
    | S k => sub_scan m repl k rest
    | O =>
      match m s with
      | Some (S k) => repl ++ sub_scan m repl k rest
      | _ => c :: sub_scan m repl 0 rest
      end
    end
  end.

Definition re_sub (m : pystr -> option nat) (repl s : pystr) : pystr :=
  sub_scan m repl 0 s.

(** [re.search]: is there a position where the pattern matches? *)
Fixpoint re_search (m : pystr -> bool) (s : pystr) : bool :=
  m s ||
  match s with
  | [] => false
  | _ :: rest => re_search m rest
  end.

(** The pattern of a literal, for [str.replace]. *)
Definition m_literal (old : pystr) (t : pystr) : option nat :=
  if startswith old t then Some (length old) else None.

(** [s.replace(old, new)]; with an empty [old], Python puts [new] before
    every character and at the end. *)
Definition str_replace (old new s : pystr) : pystr :=
  match old with
  | [] => new ++ flat_map (fun c => c :: new) s
  | _ => re_sub (m_literal old) new s
  end.

(** [s.split(sep)] for a separator that is not empty: [cur] is the piece
    being read. *)
Fixpoint split_scan (sep : pystr) (skip : nat) (cur : pystr) (s : pystr)
    : list pystr :=
  match s with
  | [] => [cur]
  | c :: rest =>
    match skip with
    | S k => split_scan sep k cur rest
    | O =>
      if startswith sep s
      then cur :: split_scan sep (length sep - 1) [] rest
      else split_scan sep 0 (cur ++ [c]) rest
    end
  end.

Definition str_split (sep s : pystr) : list pystr := split_scan sep 0 [] s.

(** The pattern ["\n+"]. *)
Definition m_newlines (t : pystr) : option nat :=
  match span_len (N.eqb newline) t with
  | O => None
  | n => Some n
  end.

(** The pattern ["{|}"]. *)
Definition m_brace (t : pystr) : option nat :=
  match t with
  | c :: _ => if isbrace c then Some 1%nat else None
  | [] => None
  end.

(** The pattern [r"\s*[-–]+\s*"].  The three greedy parts never give
    back what they took: when the white space is not followed by a dash,
    no shorter run of white space is either, since a dash is not white
    space. *)
Definition m_pages (t : pystr) : option nat :=
  let n1 := span_len isspace t in
  let t1 := drop n1 t in
  match span_len isdash t1 with
  | O => None
  | n2 =>
    let t2 := drop n2 t1 in
    Some (n1 + n2 + span_len isspace t2)%nat
  end.

(** The pattern [r"shared\s?task"]. *)
Definition m_sharedtask (t : pystr) : bool :=
  startswith (py "shared") t &&
  let r := drop 6 t in
  match r with
  | c :: r' => (isspace c && startswith (py "task") r') || startswith (py "task") r
  | [] => false
  end.

(** ** Entries, exceptions *)

Abbreviation entry := (gmap (list N) (list N)) (only parsing).

(** [Chained e context]: [e] was raised while [context] was being
    handled, and Python keeps the exception being handled as
    [e.__context__]. *)
Inductive exn :=
| KeyError (key : pystr)
| NotImplementedError (msg : pystr)
| UnboundLocalError (name : pystr)
| ValueError
| AssertionError
| Chained (e : exn) (context : exn).

Inductive result (A : Type) :=
| Ok (a : A)
| Raise (e : exn).
Arguments Ok {A} a.
Arguments Raise {A} e.

Global Instance result_ret : MRet result := fun _ a => Ok a.
Global Instance result_bind : MBind result := fun _ _ f r =>
  match r with
  | Ok a => f a
  | Raise e => Raise e
  end.

(** [entry[key]] *)
Definition get (e : entry) (key : pystr) : result pystr :=
  match e !! key with
  | Some v => Ok v
  | None => Raise (KeyError key)
  end.

(** ** formatter *)

Section Formatter.
Context `{Unicode}.

(** ["{" + r + "}" if any(x.isupper() for x in r) else r] *)
Definition capitalize (r : pystr) : pystr :=
  if existsb isupper r then lbrace :: r ++ [rbrace] else r.

Definition formatter_title (v : pystr) : pystr :=
  let row := re_sub m_brace [] v in
  let row := str_split (py " ") row in
  join (py " ") (map capitalize row).

Definition formatter_pages (v : pystr) : pystr :=
  let row := re_sub m_pages (py "-") v in
  re_sub (m_literal (py "-")) [endash] row.

(** The body of the loop over the keys, for one key.  Every value that
    [bibtexparser] stores is a [str], so the test on the type holds. *)
Definition formatter_field (key v : pystr) : pystr :=
  let v := re_sub m_newlines (py " ") v in
  let v :=
    if bool_decide (key = py "title") || bool_decide (key = py "booktitle")
    then formatter_title v else v in
  if bool_decide (key = py "pages") then formatter_pages v else v.

Definition formatter (e : entry) : entry :=
  map_imap (fun key v => Some (formatter_field key v)) e.
End Formatter.

(** ** author2html and the five renderers *)

Definition default_special : list pystr :=
  [py "Heinrich, Philipp"; py "Heinrich, P."].

(** The loop [for s in special: author = author.replace(s, ...)]. *)
Definition underline (special : list pystr) (author : pystr) : pystr :=
  fold_left
    (fun author s => str_replace s (py "<u>" ++ s ++ py "</u>") author)
    special author.

Definition author2html_with (special : list pystr) (author : pystr) : pystr :=
  underline special (str_replace (py " and ") (py "; ") author).

(** [author2html] with the default value of [special]. *)
Definition author2html : pystr -> pystr := author2html_with default_special.

Definition has_key (e : entry) (key : pystr) : bool :=
  bool_decide (is_Some (e !! key)).

Definition article2html (e : entry) : result pystr :=
  volume ← get e (py "volume");
  let volume_number := py "<b>" ++ volume ++ py "</b>" in
  volume_number ←
    (if has_key e (py "number")
     then number ← get e (py "number");
          Ok (volume_number ++ py "(" ++ number ++ py ")")
     else Ok volume_number);
  author ← get e (py "author");
  year ← get e (py "year");
  title ← get e (py "title");
  journal ← get e (py "journal");
  pages ← get e (py "pages");
  Ok (join (py " ") [
    author2html author;
    py "(" ++ year ++ py ").";
    py "<b>" ++ title ++ py "</b>.";
    py "<i>" ++ journal ++ py "</i>";
    volume_number ++ py ":";
    pages ++ py "."
  ]).

(** When the entry has neither [author] nor [editor], the local variable
    [author] is read before it was assigned. *)
Definition book2html (e : entry) : result pystr :=
  author ←
    (if has_key e (py "author") then a ← get e (py "author"); Ok (author2html a)
     else if has_key e (py "editor") then a ← get e (py "editor"); Ok (author2html a)
     else Raise (UnboundLocalError (py "author")));
  year ← get e (py "year");
  title ← get e (py "title");
  address ← get e (py "address");
  publisher ← get e (py "publisher");
  Ok (join (py " ") [
    author;
    py "(" ++ year ++ py ").";
    py "<b>" ++ title ++ py "</b>.";
    address ++ py ":";
    publisher ++ py "."
  ]).

Definition inproceedings2html (e : entry) : result pystr :=
  author ← get e (py "author");
  year ← get e (py "year");
  title ← get e (py "title");
  booktitle ← get e (py "booktitle");
  pages ← get e (py "pages");
  address ← get e (py "address");
  Ok (join (py " ") [
    author2html author;
    py "(" ++ year ++ py ").";
    py "<b>" ++ title ++ py "</b>.";
    py "In <i>" ++ booktitle ++ py "</i>,";
    py "pages " ++ pages ++ py ",";
    address ++ py "."
  ]).

Definition incollection2html (e : entry) : result pystr :=
  author ← get e (py "author");
  year ← get e (py "year");
  title ← get e (py "title");
  booktitle ← get e (py "booktitle");
  editor ← get e (py "editor");
  pages ← get e (py "pages");
  address ← get e (py "address");
  publisher ← get e (py "publisher");
  Ok (join (py " ") [
    author2html author;
    py "(" ++ year ++ py ").";
    py "<b>" ++ title ++ py "</b>.";
    py "In <i>" ++ booktitle ++ py "</i>,";
    py "edited by " ++ author2html editor ++ py ",";
    py "pages " ++ pages ++ py ",";
    address ++ py ":";
    publisher ++ py "."
  ]).

Definition misc2html (e : entry) : result pystr :=
  author ← get e (py "author");
  year ← get e (py "year");
  title ← get e (py "title");
  howpublished ← get e (py "howpublished");
  Ok (join (py " ") [
    author2html author;
    py "(" ++ year ++ py ").";
    py "<b>" ++ title ++ py "</b>.";
    py "<i>" ++ howpublished ++ py "</i>."
  ]).

(** ** The outside world *)

Inductive chunk :=
| Str (s : pystr)
| BibText (entries : list entry).

(** [ToCsv]: [DataFrame(entries).to_csv(path)]; [Open], [Write], [Close]:
    a file opened for writing (which creates or truncates it), written to and
    closed; [BibText entries]: what [BibTexWriter.write] returns for a
    database of these entries; [Print]: [print(entry)]. *)
Inductive event :=
| ToCsv (path : pystr) (entries : list entry)
| Open (path : pystr)
| Write (path : pystr) (c : chunk)
| Close (path : pystr)
| Print (e : entry).

(** A computation: the events it caused, in order, and how it ended. *)
Definition io (A : Type) : Type := list event * result A.

Global Instance io_ret : MRet io := fun _ a => ([], Ok a).
Global Instance io_bind : MBind io := fun _ _ f m =>
  match m with
  | (t, Ok a) => let (t', r) := f a in (t ++ t', r)
  | (t, Raise e) => (t, Raise e)
  end.

Definition emit (ev : event) : io unit := ([ev], Ok tt).
Definition lift {A} (r : result A) : io A := ([], r).

(** [with open(path, 'wt') as f: body]: the file is closed however the
    body ends. *)
Definition with_open (path : pystr) (body : io unit) : io unit :=
  let (t, r) := body in (Open path :: t ++ [Close path], r).

Fixpoint for_ {A} (l : list A) (body : A -> io unit) : io unit :=
  match l with
  | [] => mret tt
  | x :: rest => body x ≫= fun _ => for_ rest body
  end.

(** ** bibtex2html *)

Definition dquote : char := 34.

(** ['<a href="%s">%s</a>' % (href, label)] *)
Definition link (href label : pystr) : pystr :=
  py "<a href=" ++ dquote :: href ++ dquote :: py ">" ++ label ++ py "</a>".

(** The dispatch on the entry type, inside the [try]. *)
Definition dispatch (e : entry) : result pystr :=
  t ← get e (py "ENTRYTYPE");
  if bool_decide (t = py "article") then article2html e
  else if bool_decide (t = py "book") || bool_decide (t = py "proceedings")
  then book2html e
  else if bool_decide (t = py "inproceedings") then inproceedings2html e
  else if bool_decide (t = py "incollection") then incollection2html e
  else if bool_decide (t = py "misc") then misc2html e
  else Raise (NotImplementedError (py "ENTRYTYPE " ++ t ++ py " not supported")).

Definition asset_kinds : list (pystr * pystr) :=
  [(py "abstract", py "_abstract.pdf"); (py "pdf", py ".pdf");
   (py "slides", py "_slides.pdf"); (py "poster", py "_poster.pdf")].

Definition unescape (out : pystr) : pystr :=
  let out := str_replace (py "``") (py "&ldquo;") out in
  let out := str_replace (py "''") (py "&rdquo;") out in
  let out := str_replace (py "\_") (py "_") out in
  str_replace (py "\&") (py "&") out.

(** The part of [bibtex2html] behind the [try]: [out] is the citation
    that the dispatch built; [isfile] is [os.path.isfile]. *)
Definition decorate (isfile : pystr -> bool) (e : entry) (pdf_dir out : pystr)
    : result pystr :=
  let out := re_sub m_brace [] out in
  let out := out ++ py " [" in
  id ← get e (py "ID");
  let out := out ++ link (join (py "/") [py "bib"; id ++ py ".bib"]) (py "bib") in
  let out :=
    match e !! py "url" with
    | Some url => out ++ py ", " ++ link url (py "web")
    | None => out
    end in
  let out :=
    fold_left
      (fun out kind =>
         let res := pdf_dir ++ id ++ kind.2 in
         if isfile res then out ++ py ", " ++ link res kind.1 else out)
      asset_kinds out in
  let out := out ++ py "]" ++ [newline] in
  Ok (unescape out).

Definition bibtex2html (isfile : pystr -> bool) (e : entry) (pdf_dir : pystr)
    : io pystr :=
  match dispatch e with
  | Raise (KeyError key) =>
    ([Print e],
     Raise (Chained (NotImplementedError (py "can't deal with this"))
              (KeyError key)))
  | Raise x => ([], Raise x)
  | Ok out => lift (decorate isfile e pdf_dir out)
  end.

(** ** read_many_bibs *)

Section Pipeline.
Context `{Unicode}.

(** The loop that drops the comments and formats the other entries. *)
Fixpoint consistencize_entries (entries : list entry) : result (list entry) :=
  match entries with
  | [] => Ok []
  | e :: rest =>
    t ← get e (py "ENTRYTYPE");
    let kept := if bool_decide (t ≠ py "comment") then [formatter e] else [] in
    rest' ← consistencize_entries rest;
    Ok (kept ++ rest')
  end.

(** [parsed] is [bibtexparser.loads(txt_list, parser).entries], the
    entries that the parser found in the concatenation of the files of
    [paths_in]. *)
Definition read_many_bibs (paths_in : list pystr) (parsed : list entry)
    (consistencize : bool) : result (list entry) :=
  if bool_decide (length parsed = length paths_in) then
    if consistencize then consistencize_entries parsed else Ok parsed
  else Raise AssertionError.

(** ** order_db *)

(** [col[key].entries.append(entry)] on a [defaultdict(BibDatabase)]. *)
Definition col_append (key : pystr) (e : entry)
    (col : gmap (list N) (list entry)) : gmap (list N) (list entry) :=
  <[key := default [] (col !! key) ++ [e]]> col.

(** The body of the loop of [order_db]. *)
Definition order_step (order : pystr) (col : gmap (list N) (list entry))
    (e : entry) : result (gmap (list N) (list entry)) :=
  col ←
    (if bool_decide (order = py "ENTRYTYPE") then
       if match e !! py "note" with
          | Some note => re_search m_sharedtask (lower note)
          | None => false
          end
       then Ok (col_append (py "sharedtask") e col)
       else t ← get e (py "ENTRYTYPE"); Ok (col_append t e col)
     else Ok col);
  if bool_decide (order = py "date") then
    date ←
      (match e !! py "date" with
       | Some d => Ok d
       | None => get e (py "year")
       end);
    Ok (col_append date e col)
  else Ok col.

Fixpoint order_loop (order : pystr) (col : gmap (list N) (list entry))
    (entries : list entry) : result (gmap (list N) (list entry)) :=
  match entries with
  | [] => Ok col
  | e :: rest => col ← order_step order col e; order_loop order col rest
  end.

Definition order_db (db : list entry) (order : pystr)
    : result (gmap (list N) (list entry)) :=
  order_loop order ∅ db.
End Pipeline.

(** ** Sorting the keys *)

(** [a <= b] on [str]: lexicographic on the code points. *)
Fixpoint str_leb (a b : pystr) : bool :=
  match a, b with
  | [], _ => true
  | _ :: _, [] => false
  | x :: a', y :: b' =>
    if x <? y then true else if y <? x then false else str_leb a' b'
  end.

Fixpoint insert_sorted (le : pystr -> pystr -> bool) (x : pystr)
    (l : list pystr) : list pystr :=
  match l with
  | [] => [x]
  | y :: rest => if le x y then x :: l else y :: insert_sorted le x rest
  end.

Definition sort_by (le : pystr -> pystr -> bool) (l : list pystr)
    : list pystr :=
  foldr (insert_sorted le) [] l.

(** [sorted(d.keys())] and [sorted(d.keys(), reverse=True)]: the keys of
    a dictionary are distinct, so the order in which it lists them does
    not show in the result. *)
Definition sorted {A} (d : gmap (list N) A) : list pystr :=
  sort_by str_leb (elements (dom d)).
Definition sorted_reverse {A} (d : gmap (list N) A) : list pystr :=
  sort_by (fun a b => str_leb b a) (elements (dom d)).

(** ** main *)

Definition types : list (pystr * pystr) :=
  [(py "article", py "Journal Articles");
   (py "book", py "Edited Volumes");
   (py "proceedings", py "Edited Conference Proceedings");
   (py "inproceedings", py "Articles in Conference Proceedings");
   (py "incollection", py "Articles in Collections");
   (py "sharedtask", py "Shared Tasks");
   (py "misc", py "Talks and Presentations")].

Definition types_keys : gset (list N) := list_to_set (map fst types).

(** ["%" * 60 + "\n% " + key + "\n" + "%" * 60 + "\n"] *)
Definition banner (key : pystr) : pystr :=
  repeat 37 60 ++ newline :: py "% " ++ key ++ newline :: repeat 37 60
  ++ [newline].

Section Main.
Context `{Unicode}.

(** [db_ordered[key]] on the [defaultdict]. *)
Definition col_get (col : gmap (list N) (list entry)) (key : pystr)
    : list entry :=
  default [] (col !! key).

Definition write_bib (path_bib : pystr)
    (db_ordered : gmap (list N) (list entry)) : io unit :=
  with_open path_bib
    (for_ (sorted db_ordered) (fun key =>
       emit (Write path_bib (Str (banner key))) ≫= fun _ =>
       db_ordered_dates ← lift (order_db (col_get db_ordered key) (py "date"));
       for_ (sorted_reverse db_ordered_dates) (fun key2 =>
         emit (Write path_bib (BibText (col_get db_ordered_dates key2)))))).

(** [today] is [date.today().strftime("%B %d, %Y")]. *)
Definition write_html (isfile : pystr -> bool) (today pdf_dir path_html : pystr)
    (db_ordered : gmap (list N) (list entry)) : io unit :=
  let write s := emit (Write path_html (Str s)) in
  with_open path_html
    (write (py "<html>" ++ [newline]) ≫= fun _ =>
     for_ types (fun kv =>
       write (py "<h3>" ++ kv.2 ++ py "</h3>" ++ [newline]) ≫= fun _ =>
       db_ordered_dates ← lift (order_db (col_get db_ordered kv.1) (py "date"));
       write (py "<ul>" ++ [newline]) ≫= fun _ =>
       for_ (sorted_reverse db_ordered_dates) (fun key2 =>
         for_ (col_get db_ordered_dates key2) (fun bib =>
           html ← bibtex2html isfile bib pdf_dir;
           write (py "<li> " ++ html))) ≫= fun _ =>
       write (py "</ul>" ++ [newline])) ≫= fun _ =>
     write (py "<footer>" ++ [newline]) ≫= fun _ =>
     write (py "last update: " ++ today ++ [newline]) ≫= fun _ =>
     write (py "</footer>" ++ [newline]) ≫= fun _ =>
     write (py "</html>")).

Definition main (isfile : pystr -> bool) (today : pystr)
    (paths_in : list pystr) (parsed : list entry)
    (pdf_dir path_tsv path_bib path_html : pystr) : io unit :=
  db ← lift (read_many_bibs paths_in parsed true);
  emit (ToCsv path_tsv db) ≫= fun _ =>
  db_ordered ← lift (order_db db (py "ENTRYTYPE"));
  write_bib path_bib db_ordered ≫= fun _ =>
  if bool_decide (size (dom db_ordered ∪ types_keys) ≠ length types)
  then lift (Raise ValueError)
  else write_html isfile today pdf_dir path_html db_ordered.
End Main.

(** ** Vocabulary of the statements *)

(** [t in s] on strings. *)
Definition contains (t s : pystr) : bool := re_search (startswith t) s.

(** No protection marker in [s]. *)
Definition brace_free (s : pystr) : Prop :=
  forallb (fun c => negb (isbrace c)) s = true.

(** The note of an entry reads, once in lower case, "shared", then at
    most one white-space character, then "task". *)
Definition shared_task_note `{Unicode} (e : entry) : Prop :=
  exists note pre mid post,
    e !! py "note" = Some note /\
    lower note = pre ++ py "shared" ++ mid ++ py "task" ++ post /\
    (mid = [] \/ exists c, mid = [c] /\ isspace c = true).

(** The fields that each renderer reads without testing for them. *)
Definition required (t : pystr) : list pystr :=
  if bool_decide (t = py "article") then
    [py "volume"; py "author"; py "year"; py "title"; py "journal"; py "pages"]
  else if bool_decide (t = py "book") || bool_decide (t = py "proceedings") then
    [py "year"; py "title"; py "address"; py "publisher"]
  else if bool_decide (t = py "inproceedings") then
    [py "author"; py "year"; py "title"; py "booktitle"; py "pages";
     py "address"]
  else if bool_decide (t = py "incollection") then
    [py "author"; py "year"; py "title"; py "booktitle"; py "editor";
     py "pages"; py "address"; py "publisher"]
  else if bool_decide (t = py "misc") then
    [py "author"; py "year"; py "title"; py "howpublished"]
  else [].

(** The first of these fields, in the order in which the renderer reads
    them, that the entry lacks. *)
Definition first_missing (e : entry) (t : pystr) : option pystr :=
  List.find (fun f => negb (has_key e f)) (required t).


(** Two en-dashes in a row. *)
Fixpoint double_dash (s : pystr) : bool :=
  match s with
  | a :: (b :: _) as rest => ((a =? endash) && (b =? endash)) || double_dash rest
  | _ => false
  end.


(** Entries for the examples. *)
Definition mk_entry (fields : list (string * string)) : entry :=
  list_to_map (map (fun kv => (py kv.1, py kv.2)) fields).

Definition e_article : entry :=
  mk_entry [("ENTRYTYPE", "article"); ("ID", "heinrich2021");
            ("author", "Smith, J. and Heinrich, Philipp");
            ("title", "A Study of BibTeX"); ("journal", "Corpora");
            ("volume", "16"); ("pages", "12 - 34");
            ("year", "2020"); ("date", "2021-03")]%string.

Definition e_misc : entry :=
  mk_entry [("ENTRYTYPE", "misc"); ("ID", "heinrich2020");
            ("author", "Heinrich, P."); ("title", "a talk");
            ("howpublished", "Talk"); ("year", "2020")]%string.

Definition e_sharedtask : entry :=
  mk_entry [("ENTRYTYPE", "inproceedings"); ("ID", "st1");
            ("note", "SharedTask results"); ("year", "2019")]%string.

Definition e_hyphen : entry :=
  mk_entry [("ENTRYTYPE", "inproceedings"); ("ID", "st2");
            ("note", "shared-task"); ("year", "2019")]%string.

Definition e_comment : entry :=
  mk_entry [("ENTRYTYPE", "comment"); ("ID", "c1")]%string.

(** An entry of the type [comment]. *)
Definition is_comment (e : entry) : bool :=
  bool_decide (e !! py "ENTRYTYPE" = Some (py "comment")).

(** An article without [pages], and one with braces in its [url]. *)
Definition e_no_pages : entry :=
  mk_entry [("ENTRYTYPE", "article"); ("ID", "heinrich2021");
            ("author", "Heinrich, Philipp"); ("title", "A Study");
            ("journal", "Corpora"); ("volume", "16");
            ("year", "2021")]%string.


Definition no_file : list N -> bool := fun _ => false.

(** A thesis: an entry type without a heading in [types]. *)
Definition e_thesis : entry :=
  mk_entry [("ENTRYTYPE", "phdthesis"); ("ID", "heinrich2022");
            ("author", "Heinrich, Philipp"); ("title", "a thesis");
            ("year", "2022")]%string.

(** A computation of the stage that writes the [.bib] file: it only
    writes to that file, and fails only on a missing [year]. *)
Definition bib_stage {A} (path : pystr) (m : io A) : Prop :=
  Forall (fun ev => exists c, ev = Write path c) m.1 /\
  forall x, m.2 = Raise x -> x = KeyError (py "year").


Definition e_double : entry :=
  mk_entry [("ENTRYTYPE", "article"); ("ID", "d1");
            ("pages", "1- -2")]%string.


(** No newline in [s]. *)
Definition nl_free (s : pystr) : Prop :=
  forallb (fun c => negb (newline =? c)) s = true.

(** The article without [pages] again, under another citation key. *)
Definition e_no_pages_too : entry :=
  <[py "ID" := py "mueller2020"]> e_no_pages.

(** The entry types that [bibtex2html] dispatches on. *)
Definition renderer_types : list pystr :=
  [py "article"; py "book"; py "proceedings"; py "inproceedings";
   py "incollection"; py "misc"].

(** The key of a record by date: its [date], else its [year]. *)
Definition date_key (e : entry) : option pystr :=
  match e !! py "date" with
  | Some d => Some d
  | None => e !! py "year"
  end.



(** The key under which [order_db] files a record. *)
Definition group_key `{Unicode} (order : pystr) (e : entry) : pystr :=
  if bool_decide (order = py "date") then default [] (date_key e)
  else if match e !! py "note" with
          | Some note => re_search m_sharedtask (lower note)
          | None => false
          end
       then py "sharedtask"
       else default [] (e !! py "ENTRYTYPE").


(** White space next to an en-dash. *)
Fixpoint space_by_dash (s : pystr) : bool :=
  match s with
  | a :: (b :: _) as rest =>
    (isspace a && (b =? endash)) || ((a =? endash) && isspace b)
    || space_by_dash rest
  | _ => false
  end.

(** * Properties *)

(** ** Scanning *)

Lemma startswith_spec (t s : pystr) :
  startswith t s = true <-> exists r, s = t ++ r.
Proof.
  revert s. induction t as [|a t IH]; intros s; simpl.
  - split; [intros _; by exists s | done].
  - destruct s as [|b s]; simpl.
    + split; [done | intros [r Hr]; discriminate].
    + rewrite andb_true_iff, N.eqb_eq, IH. split.
      * intros [-> [r ->]]. by exists r.
      * intros [r Hr]. injection Hr as -> ->. eauto.
Qed.

Lemma startswith_app (t r : pystr) : startswith t (t ++ r) = true.
Proof. apply startswith_spec. by exists r. Qed.

Lemma re_search_spec (m : pystr -> bool) (s : pystr) :
  re_search m s = true <-> exists pre t, s = pre ++ t /\ m t = true.
Proof.
  induction s as [|c s IH]; simpl.
  - rewrite orb_false_r. split.
    + intros Hm. by exists [], [].
    + intros (pre & t & Heq & Hm). symmetry in Heq.
      apply app_eq_nil in Heq as [-> ->]. done.
  - rewrite orb_true_iff, IH. split.
    + intros [Hm | (pre & t & -> & Hm)].
      * by exists [], (c :: s).
      * by exists (c :: pre), t.
    + intros (pre & t & Heq & Hm). destruct pre as [|c' pre]; simpl in Heq.
      * left. by subst t.
      * right. injection Heq as -> ->. eauto.
Qed.

Section Scan.
Variable m : list N -> option nat.
Variable repl : list N.

Lemma sub_scan_skip (k : nat) (s : pystr) :
  sub_scan m repl k s = sub_scan m repl 0 (drop k s).
Proof.
  revert k. induction s as [|c s IH]; intros [|k]; try done.
  simpl sub_scan at 1. by rewrite IH.
Qed.

Lemma re_sub_match (c : char) (rest : pystr) (k : nat) :
  m (c :: rest) = Some (S k) ->
  re_sub m repl (c :: rest) = repl ++ re_sub m repl (drop k rest).
Proof.
  intros Hm. unfold re_sub. simpl. rewrite Hm. by rewrite sub_scan_skip.
Qed.

Lemma re_sub_nomatch (c : char) (rest : pystr) :
  m (c :: rest) = None ->
  re_sub m repl (c :: rest) = c :: re_sub m repl rest.
Proof. intros Hm. unfold re_sub. simpl. by rewrite Hm. Qed.

(** The result is made of characters of the subject and of the
    replacement. *)
Lemma sub_scan_forallb (p : char -> bool) (k : nat) (s : pystr) :
  forallb p repl = true -> forallb p s = true ->
  forallb p (sub_scan m repl k s) = true.
Proof.
  intros Hr. revert k. induction s as [|c s IH]; intros k Hs; [done|].
  simpl in Hs. apply andb_true_iff in Hs as [Hc Hs]. simpl.
  destruct k as [|k]; [|by apply IH].
  destruct (m (c :: s)) as [[|j]|]; simpl.
  - by rewrite Hc, IH.
  - rewrite forallb_app, Hr, IH; done.
  - by rewrite Hc, IH.
Qed.

(** Where the pattern matches nowhere, nothing changes. *)
Lemma re_sub_id (s : pystr) :
  (forall pre t, s = pre ++ t -> m t = None) -> re_sub m repl s = s.
Proof.
  induction s as [|c s IH]; intros Hm; [done|].
  rewrite re_sub_nomatch by (apply (Hm []); done).
  f_equal. apply IH. intros pre t ->. apply (Hm (c :: pre)). done.
Qed.
End Scan.


Lemma span_len_stop (p : char -> bool) (c : char) (r : pystr) :
  p c = false -> span_len p (c :: r) = O.
Proof. intros Hc. simpl. by rewrite Hc. Qed.

Lemma span_len_le (p : char -> bool) (s : pystr) :
  (span_len p s <= length s)%nat.
Proof. induction s as [|c s IH]; simpl; [lia|]. destruct (p c); simpl; lia. Qed.

(** A substitution of one character by one character is a [map]. *)
Lemma re_sub_char (a b : char) (s : pystr) :
  re_sub (m_literal [a]) [b] s = map (fun c => if a =? c then b else c) s.
Proof.
  induction s as [|c s IH]; [done|].
  destruct (a =? c) eqn:Hac.
  - rewrite (re_sub_match _ _ c s O).
    + simpl. by rewrite Hac, drop_0, IH.
    + unfold m_literal. simpl. by rewrite Hac.
  - rewrite re_sub_nomatch.
    + simpl. by rewrite Hac, IH.
    + unfold m_literal. simpl. by rewrite Hac.
Qed.

(** Removing the protection markers is a [filter]. *)
Lemma re_sub_brace (s : pystr) :
  re_sub m_brace [] s = List.filter (fun c => negb (isbrace c)) s.
Proof.
  induction s as [|c s IH]; [done|].
  simpl List.filter. destruct (isbrace c) eqn:Hc; simpl.
  - rewrite (re_sub_match _ _ c s O); [by rewrite drop_0|].
    simpl. by rewrite Hc.
  - rewrite re_sub_nomatch; [by rewrite IH|]. simpl. by rewrite Hc.
Qed.

(** ** order_db *)

(** Two different literals. *)
Ltac py_neq := let Heq := fresh in intros Heq; vm_compute in Heq; discriminate Heq.

Lemma col_get_append (k k' : pystr) (e : entry)
    (col : gmap (list N) (list entry)) :
  col_get (col_append k e col) k' =
  if bool_decide (k = k') then col_get col k ++ [e] else col_get col k'.
Proof.
  unfold col_get, col_append. case_bool_decide as Hk.
  - subst k'. by rewrite lookup_insert_eq.
  - by rewrite lookup_insert_ne.
Qed.

Section OrderDb.
Context `{Unicode}.

(** When every entry gets a key, the loop is a stable partition by the
    key. *)
Lemma order_loop_keyed (order : pystr) (key : entry -> pystr)
    (db : list entry) (col : gmap (list N) (list entry)) :
  (forall e c, e ∈ db -> order_step order c e = Ok (col_append (key e) e c)) ->
  exists col',
    order_loop order col db = Ok col' /\
    (forall k, col_get col' k =
               col_get col k ++ filter (fun e => key e = k) db) /\
    dom col' = dom col ∪ list_to_set (key <$> db).
Proof.
  revert col. induction db as [|e db IH]; intros col Hstep.
  - exists col. split; [done|]. split.
    + intros k. by rewrite filter_nil, app_nil_r.
    + set_solver.
  - destruct (IH (col_append (key e) e col)) as (col' & Hloop & Hget & Hdom).
    { intros e' c He'. apply Hstep. by right. }
    exists col'. split; [|split].
    + simpl. rewrite Hstep by left. exact Hloop.
    + intros k. rewrite Hget, col_get_append, filter_cons.
      case_bool_decide as Hk; destruct (decide (key e = k)); try done.
      subst k. by rewrite <- app_assoc.
    + rewrite Hdom. unfold col_append. rewrite dom_insert_L, fmap_cons.
      set_solver.
Qed.

Lemma order_step_other (order : pystr) (col : gmap (list N) (list entry))
    (e : entry) :
  order <> py "ENTRYTYPE" -> order <> py "date" ->
  order_step order col e = Ok col.
Proof.
  intros H1 H2. unfold order_step.
  rewrite !bool_decide_eq_false_2 by done. done.
Qed.

Lemma order_step_date (col : gmap (list N) (list entry)) (e : entry) :
  order_step (py "date") col e =
  match e !! py "date" with
  | Some d => Ok (col_append d e col)
  | None =>
    match e !! py "year" with
    | Some y => Ok (col_append y e col)
    | None => Raise (KeyError (py "year"))
    end
  end.
Proof.
  unfold order_step. simpl.
  destruct (e !! py "date"); [done|].
  unfold get. by destruct (e !! py "year").
Qed.

Lemma order_step_entrytype (col : gmap (list N) (list entry)) (e : entry) :
  order_step (py "ENTRYTYPE") col e =
  if match e !! py "note" with
     | Some note => re_search m_sharedtask (lower note)
     | None => false
     end
  then Ok (col_append (py "sharedtask") e col)
  else match e !! py "ENTRYTYPE" with
       | Some t => Ok (col_append t e col)
       | None => Raise (KeyError (py "ENTRYTYPE"))
       end.
Proof.
  unfold order_step.
  destruct (match e !! py "note" with Some _ => _ | None => _ end);
    simpl; [done|].
  unfold get. by destruct (e !! py "ENTRYTYPE").
Qed.

(** By date, the only error is the missing year. *)
Lemma order_loop_date_raise (db : list entry)
    (col : gmap (list N) (list entry)) (x : exn) :
  order_loop (py "date") col db = Raise x -> x = KeyError (py "year").
Proof.
  revert col. induction db as [|e db IH]; intros col; simpl; [done|].
  rewrite order_step_date.
  destruct (e !! py "date"); simpl; [by apply IH|].
  destruct (e !! py "year"); simpl; [by apply IH|].
  congruence.
Qed.

End OrderDb.

(** The pattern [shared\s?task], read as a statement about the text. *)
Lemma m_sharedtask_spec (t : pystr) :
  m_sharedtask t = true <->
  exists mid post,
    t = py "shared" ++ mid ++ py "task" ++ post /\
    (mid = [] \/ exists c, mid = [c] /\ isspace c = true).
Proof.
  unfold m_sharedtask. rewrite andb_true_iff, startswith_spec. split.
  - intros [[r ->] Hr]. change (drop 6 (py "shared" ++ r)) with r in Hr.
    destruct r as [|c r']; [done|].
    apply orb_true_iff in Hr as [[Hc Hr]%andb_true_iff | Hr].
    + apply startswith_spec in Hr as [post ->].
      exists [c], post. split; [done|]. right. by exists c.
    + apply startswith_spec in Hr as [post Hr].
      exists [], post. split; [by rewrite Hr | by left].
  - intros (mid & post & -> & Hmid). split; [by eexists|].
    change (drop 6 (py "shared" ++ ?r)) with r.
    destruct Hmid as [-> | (c & -> & Hc)].
    + change ([] ++ py "task" ++ post) with (py "task" ++ post).
      destruct (py "task" ++ post) as [|c r'] eqn:E.
      * discriminate E.
      * rewrite <- E, startswith_app. apply orb_true_r.
    + change ([c] ++ py "task" ++ post) with (c :: py "task" ++ post).
      cbv beta iota. by rewrite Hc, startswith_app.
Qed.

Lemma shared_task_note_search `{Unicode} (e : entry) :
  shared_task_note e <->
  exists note, e !! py "note" = Some note /\
               re_search m_sharedtask (lower note) = true.
Proof.
  unfold shared_task_note. split.
  - intros (note & pre & mid & post & Hn & Hl & Hmid).
    exists note. split; [done|]. apply re_search_spec.
    exists pre, (py "shared" ++ mid ++ py "task" ++ post).
    split; [done|]. apply m_sharedtask_spec. eauto.
  - intros (note & Hn & Hs).
    apply re_search_spec in Hs as (pre & t & Hl & Hm).
    apply m_sharedtask_spec in Hm as (mid & post & -> & Hmid).
    exists note, pre, mid, post. done.
Qed.

(** ** Sorting the keys *)



Section Sort.
Variable le : list N -> list N -> bool.
Hypothesis le_total : forall a b, le a b = false -> le b a = true.
Hypothesis le_trans : forall a b c, le a b = true -> le b c = true -> le a c = true.

Lemma insert_sorted_perm (x : pystr) (l : list pystr) :
  Permutation (insert_sorted le x l) (x :: l).
Proof.
  induction l as [|y l IH]; simpl; [done|].
  destruct (le x y); [done|]. rewrite IH. apply perm_swap.
Qed.

Lemma sort_by_perm (l : list pystr) : Permutation (sort_by le l) l.
Proof.
  induction l as [|x l IH]; simpl; [done|].
  unfold sort_by in *. simpl. by rewrite insert_sorted_perm, IH.
Qed.


End Sort.




Lemma elem_of_sorted {A} (d : gmap (list N) A) (k : pystr) :
  k ∈ sorted d <-> k ∈ dom d.
Proof. unfold sorted. rewrite sort_by_perm. apply elem_of_elements. Qed.

(** ** Classification: the claims *)

(** C10.  With an ordering mode that is neither ["ENTRYTYPE"] nor
    ["date"], [order_db] returns the empty grouping, whatever the
    database holds: every record is dropped and nothing is raised. *)
Theorem order_db_other_mode `{Unicode} (db : list entry) (order : pystr) :
  order <> py "ENTRYTYPE" -> order <> py "date" ->
  order_db db order = Ok ∅.
Proof.
  intros H1 H2. unfold order_db. generalize (∅ : gmap (list N) (list entry)).
  induction db as [|e db IH]; intros col; simpl; [done|].
  rewrite order_step_other by done. apply IH.
Qed.

Lemma order_db_other_mode_witness :
  @order_db ascii_case [e_article; e_misc] (py "year") = Ok ∅.
Proof. apply order_db_other_mode; py_neq. Defined.

(** C3, as the code has it.  By category, a record is filed under
    [sharedtask] when its note, in lower case, reads "shared", at most one
    white-space character, "task"; otherwise under its entry type,
    whatever that type is.  A hyphen between the two words is not
    accepted. *)
Theorem by_category_classification `{Unicode} (db : list entry) :
  (forall e, e ∈ db -> is_Some (e !! py "ENTRYTYPE")) ->
  exists col,
    order_db db (py "ENTRYTYPE") = Ok col /\
    forall e k, e ∈ col_get col k <->
      e ∈ db /\
      ((shared_task_note e /\ k = py "sharedtask") \/
       (~ shared_task_note e /\ e !! py "ENTRYTYPE" = Some k)).
Proof.
  intros Htype.
  set (hit := fun e : entry =>
    match e !! py "note" with
    | Some note => re_search m_sharedtask (lower note)
    | None => false
    end).
  assert (Hhit : forall e, hit e = true <-> shared_task_note e).
  { intros e. rewrite shared_task_note_search. unfold hit.
    destruct (e !! py "note") as [note|]; split.
    - intros Hs. by exists note.
    - by intros (note' & [= <-] & Hs).
    - done.
    - by intros (note' & [=] & _). }
  set (key := fun e : entry =>
    if hit e then py "sharedtask" else default [] (e !! py "ENTRYTYPE")).
  destruct (order_loop_keyed (py "ENTRYTYPE") key db ∅)
    as (col & Hloop & Hget & _).
  { intros e c He. rewrite order_step_entrytype. unfold key. fold (hit e).
    destruct (hit e); [done|]. by destruct (Htype e He) as [t ->]. }
  exists col. split; [exact Hloop|]. intros e k.
  rewrite Hget. unfold col_get at 1. rewrite lookup_empty. simpl.
  rewrite list_elem_of_filter. unfold key. split.
  - intros [Hk He]. split; [done|]. destruct (hit e) eqn:Hh.
    + left. split; [by apply Hhit | done].
    + right. split.
      * intros Hn%Hhit. congruence.
      * destruct (Htype e He) as [t Ht]. rewrite Ht in Hk |- *.
        simpl in Hk. by subst.
  - intros [He [[Hn ->] | [Hn Hk]]]; split; try done.
    + apply Hhit in Hn. by rewrite Hn.
    + destruct (hit e) eqn:Hh; [by apply Hhit in Hh|]. by rewrite Hk.
Qed.

Lemma by_category_classification_witness :
  exists col,
    @order_db ascii_case [e_sharedtask; e_misc] (py "ENTRYTYPE") = Ok col /\
    forall e k, e ∈ col_get col k <->
      e ∈ [e_sharedtask; e_misc] /\
      ((@shared_task_note ascii_case e /\ k = py "sharedtask") \/
       (~ @shared_task_note ascii_case e /\ e !! py "ENTRYTYPE" = Some k)).
Proof.
  apply (@by_category_classification ascii_case [e_sharedtask; e_misc]).
  intros e He. apply list_elem_of_In in He.
  destruct He as [<- | [<- | []]]; vm_compute; eauto.
Defined.

(** The scenario of the specification: ["SharedTask results"] on an
    [inproceedings] record. *)
Example sharedtask_example :
  @order_db ascii_case [e_sharedtask] (py "ENTRYTYPE") =
  Ok {[ py "sharedtask" := [e_sharedtask] ]}.
Proof. vm_compute. reflexivity. Qed.

(** C3 as stated fails: a note that reads ["shared-task"] leaves the
    record under its entry type. *)
Lemma shared_hyphen_task_not_overridden :
  e_hyphen !! py "note" = Some (py "shared-task") /\
  @order_db ascii_case [e_hyphen] (py "ENTRYTYPE") =
  Ok {[ py "inproceedings" := [e_hyphen] ]}.
Proof. split; vm_compute; reflexivity. Qed.



(** The record dated ["2021-03"] is read before the one of ["2020"],
    though it comes second in the database. *)
Example by_date_example :
  exists col,
    @order_db ascii_case [e_misc; e_article] (py "date") = Ok col /\
    sorted_reverse col = [py "2021-03"; py "2020"] /\
    flat_map (col_get col) (sorted_reverse col) = [e_article; e_misc].
Proof. eexists. split; [vm_compute; reflexivity|]. split; vm_compute; reflexivity. Qed.

(** ** read_many_bibs: the claim *)

Lemma consistencize_entries_length `{Unicode} (parsed db : list entry) :
  consistencize_entries parsed = Ok db ->
  (length db + length (List.filter is_comment parsed) = length parsed)%nat.
Proof.
  revert db. induction parsed as [|e parsed IH]; intros db; simpl.
  - intros [= <-]. done.
  - unfold get, is_comment in *.
    destruct (e !! py "ENTRYTYPE") as [t|] eqn:Ht; simpl; [|done].
    destruct (consistencize_entries parsed) as [rest|] eqn:Hrest; simpl; [|done].
    intros [= <-]. specialize (IH rest eq_refl).
    rewrite length_app.
    destruct (decide (t = py "comment")) as [->|Hne].
    + rewrite bool_decide_eq_false_2 by (intros Hx; by apply Hx).
      rewrite bool_decide_eq_true_2 by done. simpl. lia.
    + rewrite bool_decide_eq_true_2 by done.
      rewrite bool_decide_eq_false_2 by congruence. simpl. lia.
Qed.

(** The assertion counts the parsed entries before the comments are
    dropped. *)
Lemma read_many_bibs_length `{Unicode}
    (paths_in : list pystr) (parsed db : list entry) :
  read_many_bibs paths_in parsed true = Ok db ->
  (length db + length (List.filter is_comment parsed) = length paths_in)%nat.
Proof.
  unfold read_many_bibs. case_bool_decide as Hlen; [|done].
  intros Hdb. rewrite <- Hlen. by apply consistencize_entries_length.
Qed.

(** ** bibtex2html: the claims *)

Lemma dispatch_article (e : entry) :
  e !! py "ENTRYTYPE" = Some (py "article") -> dispatch e = article2html e.
Proof. intros Ht. unfold dispatch, get. rewrite Ht. reflexivity. Qed.

Lemma dispatch_book (e : entry) (t : pystr) :
  e !! py "ENTRYTYPE" = Some t -> t = py "book" \/ t = py "proceedings" ->
  dispatch e = book2html e.
Proof.
  intros Ht [-> | ->]; unfold dispatch, get; rewrite Ht; reflexivity.
Qed.

Lemma dispatch_inproceedings (e : entry) :
  e !! py "ENTRYTYPE" = Some (py "inproceedings") ->
  dispatch e = inproceedings2html e.
Proof. intros Ht. unfold dispatch, get. rewrite Ht. reflexivity. Qed.

Lemma dispatch_incollection (e : entry) :
  e !! py "ENTRYTYPE" = Some (py "incollection") ->
  dispatch e = incollection2html e.
Proof. intros Ht. unfold dispatch, get. rewrite Ht. reflexivity. Qed.

Lemma dispatch_misc (e : entry) :
  e !! py "ENTRYTYPE" = Some (py "misc") -> dispatch e = misc2html e.
Proof. intros Ht. unfold dispatch, get. rewrite Ht. reflexivity. Qed.

(** Every lookup of the renderer at hand, one after the other. *)
Ltac all_lookups e :=
  repeat match goal with
         | |- context [e !! ?k] => destruct (e !! k) eqn:?
         end.

Lemma required_cases (t f : pystr) :
  f ∈ required t ->
  t = py "article" \/ t = py "book" \/ t = py "proceedings" \/
  t = py "inproceedings" \/ t = py "incollection" \/ t = py "misc".
Proof.
  unfold required. intros Hf.
  destruct (decide (t = py "article")); [tauto|].
  destruct (decide (t = py "book")); [tauto|].
  destruct (decide (t = py "proceedings")); [tauto|].
  destruct (decide (t = py "inproceedings")); [tauto|].
  destruct (decide (t = py "incollection")); [tauto|].
  destruct (decide (t = py "misc")); [tauto|].
  rewrite !bool_decide_eq_false_2 in Hf by done.
  by apply not_elem_of_nil in Hf.
Qed.

Ltac which_field Hf :=
  repeat (apply elem_of_cons in Hf as [-> | Hf]);
  [.. | by apply not_elem_of_nil in Hf].

(** A renderer that misses one of its fields raises [KeyError]. *)
Lemma missing_field_KeyError (e : entry) (t f : pystr) :
  e !! py "ENTRYTYPE" = Some t -> f ∈ required t -> e !! f = None ->
  (t = py "book" \/ t = py "proceedings" ->
   is_Some (e !! py "author") \/ is_Some (e !! py "editor")) ->
  exists k, dispatch e = Raise (KeyError k).
Proof.
  intros Ht Hf Hnone Hbook.
  destruct (required_cases t f Hf) as [-> | [-> | [-> | [-> | [-> | ->]]]]].
  - rewrite dispatch_article by done.
    change (required (py "article")) with
      [py "volume"; py "author"; py "year"; py "title"; py "journal";
       py "pages"] in Hf.
    unfold article2html, has_key, get.
    which_field Hf; all_lookups e; simpl; eauto; congruence.
  - rewrite (dispatch_book e (py "book")) by auto.
    change (required (py "book")) with
      [py "year"; py "title"; py "address"; py "publisher"] in Hf.
    destruct Hbook as [[a Ha] | [a Ha]]; [by left | |];
      unfold book2html, has_key, get;
      which_field Hf; all_lookups e; simpl; eauto; congruence.
  - rewrite (dispatch_book e (py "proceedings")) by auto.
    change (required (py "proceedings")) with
      [py "year"; py "title"; py "address"; py "publisher"] in Hf.
    destruct Hbook as [[a Ha] | [a Ha]]; [by right | |];
      unfold book2html, has_key, get;
      which_field Hf; all_lookups e; simpl; eauto; congruence.
  - rewrite dispatch_inproceedings by done.
    change (required (py "inproceedings")) with
      [py "author"; py "year"; py "title"; py "booktitle"; py "pages";
       py "address"] in Hf.
    unfold inproceedings2html, get.
    which_field Hf; all_lookups e; simpl; eauto; congruence.
  - rewrite dispatch_incollection by done.
    change (required (py "incollection")) with
      [py "author"; py "year"; py "title"; py "booktitle"; py "editor";
       py "pages"; py "address"; py "publisher"] in Hf.
    unfold incollection2html, get.
    which_field Hf; all_lookups e; simpl; eauto; congruence.
  - rewrite dispatch_misc by done.
    change (required (py "misc")) with
      [py "author"; py "year"; py "title"; py "howpublished"] in Hf.
    unfold misc2html, get.
    which_field Hf; all_lookups e; simpl; eauto; congruence.
Qed.

Lemma has_key_Some (e : entry) (f v : pystr) :
  e !! f = Some v -> has_key e f = true.
Proof. intros Hf. unfold has_key. rewrite Hf. by apply bool_decide_eq_true_2. Qed.

Lemma has_key_None (e : entry) (f : pystr) :
  e !! f = None -> has_key e f = false.
Proof.
  intros Hf. unfold has_key. rewrite Hf.
  apply bool_decide_eq_false_2. by intros [v Hv].
Qed.

(** Look the fields up in the order of [Hfind], up to the first that is
    missing. *)
Ltac up_to_first_missing e Hfind :=
  repeat match type of Hfind with
         | context [has_key e ?f] =>
           let Hf := fresh "Hf" in
           destruct (e !! f) as [?|] eqn:Hf;
           [ rewrite (has_key_Some e f _ Hf) in Hfind
           | rewrite (has_key_None e f Hf) in Hfind ]
         end;
  simpl in Hfind; try discriminate Hfind; injection Hfind as <-.

(** The [KeyError] of a renderer names the first field that it reads and
    does not find. *)
Lemma first_missing_KeyError (e : entry) (t k : pystr) :
  e !! py "ENTRYTYPE" = Some t -> first_missing e t = Some k ->
  (t = py "book" \/ t = py "proceedings" ->
   is_Some (e !! py "author") \/ is_Some (e !! py "editor")) ->
  dispatch e = Raise (KeyError k).
Proof.
  intros Ht Hfind Hbook. unfold first_missing in Hfind.
  assert (Hf : exists f, f ∈ required t).
  { destruct (required t) as [|f l]; [discriminate Hfind|]. exists f. left. }
  destruct Hf as [f Hf].
  destruct (required_cases t f Hf) as [-> | [-> | [-> | [-> | [-> | ->]]]]];
    clear f Hf.
  - rewrite dispatch_article by done.
    change (required (py "article")) with
      [py "volume"; py "author"; py "year"; py "title"; py "journal";
       py "pages"] in Hfind.
    cbn [List.find] in Hfind. unfold article2html, has_key, get.
    up_to_first_missing e Hfind; try reflexivity;
      destruct (e !! py "number"); reflexivity.
  - rewrite (dispatch_book e (py "book")) by auto.
    change (required (py "book")) with
      [py "year"; py "title"; py "address"; py "publisher"] in Hfind.
    cbn [List.find] in Hfind. unfold book2html, get.
    destruct Hbook as [[a Ha] | [a Ha]]; [by left | |].
    + rewrite (has_key_Some e _ a Ha), Ha.
      up_to_first_missing e Hfind; reflexivity.
    + rewrite (has_key_Some e (py "editor") a Ha), Ha.
      destruct (e !! py "author") as [b|] eqn:Hb;
        [rewrite (has_key_Some e _ b Hb) | rewrite (has_key_None e _ Hb)];
        up_to_first_missing e Hfind; reflexivity.
  - rewrite (dispatch_book e (py "proceedings")) by auto.
    change (required (py "proceedings")) with
      [py "year"; py "title"; py "address"; py "publisher"] in Hfind.
    cbn [List.find] in Hfind. unfold book2html, get.
    destruct Hbook as [[a Ha] | [a Ha]]; [by right | |].
    + rewrite (has_key_Some e _ a Ha), Ha.
      up_to_first_missing e Hfind; reflexivity.
    + rewrite (has_key_Some e (py "editor") a Ha), Ha.
      destruct (e !! py "author") as [b|] eqn:Hb;
        [rewrite (has_key_Some e _ b Hb) | rewrite (has_key_None e _ Hb)];
        up_to_first_missing e Hfind; reflexivity.
  - rewrite dispatch_inproceedings by done.
    change (required (py "inproceedings")) with
      [py "author"; py "year"; py "title"; py "booktitle"; py "pages";
       py "address"] in Hfind.
    cbn [List.find] in Hfind. unfold inproceedings2html, get.
    up_to_first_missing e Hfind; reflexivity.
  - rewrite dispatch_incollection by done.
    change (required (py "incollection")) with
      [py "author"; py "year"; py "title"; py "booktitle"; py "editor";
       py "pages"; py "address"; py "publisher"] in Hfind.
    cbn [List.find] in Hfind. unfold incollection2html, get.
    up_to_first_missing e Hfind; reflexivity.
  - rewrite dispatch_misc by done.
    change (required (py "misc")) with
      [py "author"; py "year"; py "title"; py "howpublished"] in Hfind.
    cbn [List.find] in Hfind. unfold misc2html, get.
    up_to_first_missing e Hfind; reflexivity.
Qed.

(** C2, as the code has it.  A record whose entry type has a renderer
    and which lacks a field that the renderer reads (for a book or the
    proceedings: while it has an author or an editor) is printed, and
    [NotImplementedError("can't deal with this")] is raised while the
    [KeyError] is handled: Python chains the two, and the [KeyError]
    names the first field, in the order in which the renderer reads
    them, that the record lacks.  The citation key of the record is in
    neither. *)
Theorem missing_field_error (isfile : list N -> bool) (e : entry)
    (pdf_dir t k : pystr) :
  e !! py "ENTRYTYPE" = Some t -> first_missing e t = Some k ->
  (t = py "book" \/ t = py "proceedings" ->
   is_Some (e !! py "author") \/ is_Some (e !! py "editor")) ->
  bibtex2html isfile e pdf_dir =
  ([Print e],
   Raise (Chained (NotImplementedError (py "can't deal with this"))
            (KeyError k))).
Proof.
  intros Ht Hfind Hbook. unfold bibtex2html.
  by rewrite (first_missing_KeyError e t k Ht Hfind Hbook).
Qed.

Lemma missing_field_error_witness :
  bibtex2html no_file e_no_pages (py "pdf/") =
  ([Print e_no_pages],
   Raise (Chained (NotImplementedError (py "can't deal with this"))
            (KeyError (py "pages")))).
Proof.
  apply (missing_field_error no_file e_no_pages (py "pdf/") (py "article")).
  - vm_compute. reflexivity.
  - vm_compute. reflexivity.
  - intros [Hx | Hx]; vm_compute in Hx; discriminate Hx.
Defined.

(** C2 as stated fails: the error does not identify the record.  Two
    articles without [pages] that differ in their citation key raise the
    same error, [NotImplementedError] and not an error of missing
    fields; the key shows only in the record that is printed. *)
Lemma missing_pages_error_is_anonymous :
  bibtex2html no_file e_no_pages (py "pdf/") =
    ([Print e_no_pages],
     Raise (Chained (NotImplementedError (py "can't deal with this"))
              (KeyError (py "pages")))) /\
  bibtex2html no_file e_no_pages_too (py "pdf/") =
    ([Print e_no_pages_too],
     Raise (Chained (NotImplementedError (py "can't deal with this"))
              (KeyError (py "pages")))) /\
  e_no_pages !! py "ID" = Some (py "heinrich2021") /\
  e_no_pages_too !! py "ID" = Some (py "mueller2020") /\
  contains (py "heinrich2021") (py "can't deal with this") = false /\
  contains (py "heinrich2021") (py "pages") = false.
Proof. repeat split; vm_compute; reflexivity. Qed.

(** A book with neither author nor editor fails on the unassigned
    variable, which [bibtex2html] does not catch. *)
Example book_without_author :
  bibtex2html no_file
    (mk_entry [("ENTRYTYPE", "book"); ("ID", "b1"); ("title", "T");
               ("year", "2020")]%string) (py "pdf/") =
  ([], Raise (UnboundLocalError (py "author"))).
Proof. vm_compute. reflexivity. Qed.

(** *** Protection markers *)



Lemma brace_free_strip (s : pystr) : brace_free (re_sub m_brace [] s).
Proof.
  rewrite re_sub_brace. unfold brace_free.
  induction s as [|c s IH]; [done|]. simpl.
  destruct (isbrace c) eqn:Hc; simpl; [done|]. by rewrite Hc.
Qed.










(** ** main: the claim *)

Lemma io_bind_lift_ok {A B} (a : A) (f : A -> io B) : lift (Ok a) ≫= f = f a.
Proof. unfold lift, mbind, io_bind. by destruct (f a). Qed.

Lemma io_bind_emit {B} (ev : event) (f : unit -> io B) :
  emit ev ≫= f = (ev :: (f tt).1, (f tt).2).
Proof. unfold emit, mbind, io_bind. by destruct (f tt). Qed.

Lemma bib_stage_bind {A B} (path : pystr) (m : io A) (f : A -> io B) :
  bib_stage path m -> (forall a, bib_stage path (f a)) ->
  bib_stage path (m ≫= f).
Proof.
  intros [Hm1 Hm2] Hf. unfold mbind, io_bind.
  destruct m as [t [a|x]]; simpl in *.
  - destruct (Hf a) as [Hf1 Hf2]. destruct (f a) as [t' r]. simpl in *.
    split; [by apply Forall_app | done].
  - split; [done|]. simpl. intros x0 [= <-]. by apply Hm2.
Qed.

Lemma bib_stage_for {A} (path : pystr) (l : list A) (body : A -> io unit) :
  (forall a, bib_stage path (body a)) -> bib_stage path (for_ l body).
Proof.
  intros Hbody. induction l as [|a l IH]; simpl.
  - split; [constructor | done].
  - by apply bib_stage_bind.
Qed.

Lemma bib_stage_write (path : pystr) (c : chunk) :
  bib_stage path (emit (Write path c)).
Proof. split; simpl; [|done]. constructor; [by exists c | constructor]. Qed.

Lemma bib_stage_order_db `{Unicode} (path : pystr) (db : list entry) :
  bib_stage path (lift (order_db db (py "date"))).
Proof.
  split; simpl; [constructor|]. intros x Hx. by eapply order_loop_date_raise.
Qed.

(** The [.bib] file is opened, written to and closed, whatever happens
    in between. *)
Lemma write_bib_shape `{Unicode} (path_bib : pystr)
    (db_ordered : gmap (list N) (list entry)) :
  exists writes r,
    write_bib path_bib db_ordered =
    (Open path_bib :: writes ++ [Close path_bib], r) /\
    Forall (fun ev => exists c, ev = Write path_bib c) writes /\
    forall x, r = Raise x -> x = KeyError (py "year").
Proof.
  unfold write_bib, with_open.
  match goal with |- context [for_ ?l ?body] =>
    assert (Hstage : bib_stage path_bib (for_ l body)) end.
  { apply bib_stage_for. intros key.
    apply bib_stage_bind; [apply bib_stage_write|]. intros _.
    apply bib_stage_bind; [apply bib_stage_order_db|]. intros dates.
    apply bib_stage_for. intros key2. apply bib_stage_write. }
  destruct Hstage as [H1 H2].
  match goal with |- context [for_ ?l ?body] =>
    destruct (for_ l body) as [writes r] end.
  exists writes, r. done.
Qed.

Lemma size_types_keys : size types_keys = length types.
Proof. vm_compute. reflexivity. Qed.

(** The test of [main] on the keys: it fails as soon as one key has no
    heading. *)
Lemma unknown_key_size (col : gmap (list N) (list entry)) (k : pystr) :
  is_Some (col !! k) -> k ∉ map fst types ->
  size (dom col ∪ types_keys) <> length types.
Proof.
  intros Hk Hnot Hsize. apply Hnot.
  apply (elem_of_list_to_set (C := gset (list N))). fold types_keys.
  assert (Heq : types_keys = dom col ∪ types_keys).
  { apply set_subseteq_size_eq; [apply union_subseteq_r|].
    rewrite Hsize, size_types_keys. done. }
  rewrite Heq. apply elem_of_union. left. by apply elem_of_dom.
Qed.

(** C1, as the code has it.  When the classifier produced a key that is
    not one of the seven of [types], [main] ends in an error and never
    opens the HTML file; by then it has written the TSV file and opened,
    written and closed the BIB file.  The error is [ValueError], or the
    [KeyError] of a record without [date] and [year] met while the BIB
    file is written. *)
Theorem unknown_category_error `{Unicode} (isfile : list N -> bool)
    (today : pystr) (paths_in : list pystr) (parsed : list entry)
    (pdf_dir path_tsv path_bib path_html : pystr)
    (db : list entry) (col : gmap (list N) (list entry)) (k : pystr) :
  read_many_bibs paths_in parsed true = Ok db ->
  order_db db (py "ENTRYTYPE") = Ok col ->
  is_Some (col !! k) -> k ∉ map fst types ->
  exists writes x,
    main isfile today paths_in parsed pdf_dir path_tsv path_bib path_html =
    (ToCsv path_tsv db :: Open path_bib :: writes ++ [Close path_bib],
     Raise x) /\
    Forall (fun ev => exists c, ev = Write path_bib c) writes /\
    (x = ValueError \/ x = KeyError (py "year")).
Proof.
  intros Hread Hcol Hk Hnot. unfold main.
  rewrite Hread, io_bind_lift_ok, io_bind_emit, Hcol, io_bind_lift_ok.
  destruct (write_bib_shape path_bib col) as (writes & r & -> & Hw & Hr).
  exists writes. destruct r as [[]|x].
  - exists ValueError. split; [|by auto].
    rewrite bool_decide_eq_true_2 by (by eapply unknown_key_size).
    simpl. by rewrite app_nil_r.
  - exists x. split; [done|]. split; [done|]. right. by apply Hr.
Qed.

Lemma unknown_category_error_witness :
  exists writes x,
    @main ascii_case no_file (py "November 03, 2026") [py "bib/a.bib"]
      [e_thesis] (py "pdf/") (py "p.tsv") (py "p.bib") (py "p.html") =
    (ToCsv (py "p.tsv") [@formatter ascii_case e_thesis]
     :: Open (py "p.bib") :: writes ++ [Close (py "p.bib")], Raise x) /\
    Forall (fun ev => exists c, ev = Write (py "p.bib") c) writes /\
    (x = ValueError \/ x = KeyError (py "year")).
Proof.
  apply (@unknown_category_error ascii_case no_file _ _ _ _ _ _ _
           [@formatter ascii_case e_thesis]
           {[ py "phdthesis" := [@formatter ascii_case e_thesis] ]}
           (py "phdthesis")).
  - vm_compute. reflexivity.
  - vm_compute. reflexivity.
  - vm_compute. eauto.
  - intros Hin. apply list_elem_of_In in Hin. vm_compute in Hin.
    repeat destruct Hin as [Hin | Hin]; try discriminate Hin. done.
Defined.

(** C1 as stated fails: with a thesis among the records, the TSV and the
    BIB file are written before [ValueError] is raised. *)
Lemma files_written_before_ValueError :
  @main ascii_case no_file (py "November 03, 2026") [py "bib/a.bib"]
    [e_thesis] (py "pdf/") (py "p.tsv") (py "p.bib") (py "p.html") =
  ([ToCsv (py "p.tsv") [@formatter ascii_case e_thesis];
    Open (py "p.bib");
    Write (py "p.bib") (Str (banner (py "phdthesis")));
    Write (py "p.bib") (BibText [@formatter ascii_case e_thesis]);
    Close (py "p.bib")],
   Raise ValueError).
Proof. vm_compute. reflexivity. Qed.


(** ** The page ranges *)

Lemma isdash_not_space (c : char) : isdash c = true -> isspace c = false.
Proof.
  unfold isdash. rewrite orb_true_iff, !N.eqb_eq. by intros [-> | ->].
Qed.


Lemma span_len_zero (p : char -> bool) (s : pystr) :
  span_len p s = O <-> forall c, head s = Some c -> p c = false.
Proof.
  destruct s as [|c s]; simpl; [done|]. destruct (p c) eqn:Hc; split.
  - done.
  - intros Hh. specialize (Hh c eq_refl). congruence.
  - by intros _ c' [= <-].
  - done.
Qed.

Lemma span_len_drop (p : char -> bool) (s : pystr) :
  span_len p (drop (span_len p s) s) = O.
Proof.
  induction s as [|c s IH]; [done|]. simpl.
  destruct (p c) eqn:Hc; simpl; [done | by rewrite Hc].
Qed.

Lemma m_pages_space_cons (c : char) (t : pystr) :
  isspace c = true -> m_pages (c :: t) = S <$> m_pages t.
Proof.
  intros Hc. unfold m_pages.
  assert (Hs : span_len isspace (c :: t) = S (span_len isspace t))
    by (simpl; by rewrite Hc).
  rewrite !Hs, !skipn_cons.
  by destruct (span_len isdash (drop (span_len isspace t) t)).
Qed.

Lemma m_pages_plain (c : char) (t : pystr) :
  isspace c = false -> isdash c = false -> m_pages (c :: t) = None.
Proof. intros Hs Hd. unfold m_pages. simpl. by rewrite Hs, drop_0; simpl; rewrite Hd. Qed.

Lemma m_pages_pos (t : pystr) : m_pages t <> Some O.
Proof.
  unfold m_pages. destruct (span_len isdash _); [done|].
  intros [= Hx]. lia.
Qed.

(** Behind a match there is no white space. *)
Lemma m_pages_rest (t : pystr) (n : nat) :
  m_pages t = Some n -> span_len isspace (drop n t) = O.
Proof.
  unfold m_pages. destruct (span_len isdash _) as [|n2] eqn:Hn2; [done|].
  intros [= <-]. rewrite <- !drop_drop. apply span_len_drop.
Qed.

Lemma m_pages_length (t : pystr) (n : nat) :
  m_pages t = Some n -> (n <= length t)%nat.
Proof.
  unfold m_pages. destruct (span_len isdash _) as [|n2] eqn:Hn2; [done|].
  intros [= <-].
  pose proof (span_len_le isspace t) as H1.
  pose proof (span_len_le isdash (drop (span_len isspace t) t)) as H2.
  pose proof (span_len_le isspace
    (drop (S n2) (drop (span_len isspace t) t))) as H3.
  rewrite Hn2 in H2. rewrite !length_drop in *. lia.
Qed.







Lemma re_sub_hyphen (s : pystr) :
  re_sub (m_literal (py "-")) [endash] s =
  map (fun c => if hyphen =? c then endash else c) s.
Proof. apply re_sub_char. Qed.





(** *** Normalising page ranges twice *)

Local Abbreviation scan := (re_sub m_pages (py "-")).
Local Abbreviation to_endash := (map (fun c : N => if hyphen =? c then endash else c)).

Lemma m_pages_none_not_dash (c : char) (x : pystr) :
  m_pages (c :: x) = None -> isdash c = false.
Proof.
  intros Hm. destruct (isdash c) eqn:Hd; [|done].
  pose proof (isdash_not_space c Hd) as Hs.
  unfold m_pages in Hm. simpl in Hm. rewrite Hs in Hm. simpl in Hm.
  rewrite Hd in Hm. discriminate Hm.
Qed.

Lemma to_endash_not_dash (c : char) :
  isdash c = false -> (if hyphen =? c then endash else c) = c.
Proof.
  unfold isdash. intros [Hc _]%orb_false_iff.
  rewrite N.eqb_sym in Hc. by rewrite Hc.
Qed.

Lemma scan_keeps_no_match (y : pystr) :
  m_pages y = None -> m_pages (to_endash (scan y)) = None.
Proof.
  induction y as [|c y IH]; [done|]. intros Hm.
  pose proof (m_pages_none_not_dash c y Hm) as Hd.
  rewrite re_sub_nomatch, map_cons, to_endash_not_dash by done.
  destruct (isspace c) eqn:Hs.
  - rewrite m_pages_space_cons in * by done.
    destruct (m_pages y); [discriminate Hm|]. by rewrite IH.
  - by apply m_pages_plain.
Qed.

Lemma scan_keeps_plain_start (y : pystr) :
  span_len isspace y = O -> span_len isspace (to_endash (scan y)) = O.
Proof.
  destruct y as [|c y]; [done|]. intros Hy.
  assert (Hs : isspace c = false).
  { simpl in Hy. by destruct (isspace c). }
  destruct (m_pages (c :: y)) as [[|k]|] eqn:Hm.
  - by apply m_pages_pos in Hm.
  - rewrite (re_sub_match _ _ c y k Hm). reflexivity.
  - rewrite re_sub_nomatch, map_cons by done.
    rewrite to_endash_not_dash by (by eapply m_pages_none_not_dash).
    simpl. by rewrite Hs.
Qed.

Lemma to_endash_no_hyphen (s : pystr) : hyphen ∉ to_endash s.
Proof.
  intros Hin. apply list_elem_of_fmap in Hin as (c & Hc & _).
  destruct (hyphen =? c) eqn:Heq; [discriminate Hc|].
  apply N.eqb_neq in Heq. congruence.
Qed.

Lemma to_endash_head (s : pystr) (c : char) :
  head (to_endash s) = Some c -> c <> hyphen.
Proof.
  intros Hh ->. apply (to_endash_no_hyphen s).
  destruct (to_endash s) as [|d t]; [done|]. injection Hh as ->. left.
Qed.

Lemma m_pages_single_dash (t : pystr) :
  span_len isspace t = O -> span_len isdash t = O ->
  m_pages (endash :: t) = Some 1%nat.
Proof.
  intros Hs Hd. unfold m_pages.
  change (span_len isspace (endash :: t)) with O. rewrite drop_0.
  change (span_len isdash (endash :: t)) with (S (span_len isdash t)).
  rewrite Hd. change (drop 1 (endash :: t)) with t. by rewrite Hs.
Qed.

Lemma pages_scan_idem (n : nat) (x : pystr) :
  (length x <= n)%nat ->
  double_dash (to_endash (scan x)) = false ->
  scan (to_endash (scan x)) = scan x.
Proof.
  revert x. induction n as [|n IH]; intros [|c x] Hlen Hdd;
    try done; simpl in Hlen; [lia|].
  destruct (m_pages (c :: x)) as [[|k]|] eqn:Hm.
  - by apply m_pages_pos in Hm.
  - rewrite (re_sub_match _ _ c x k Hm) in *.
    set (y := drop k x) in *.
    change (to_endash (py "-" ++ scan y))
      with (endash :: to_endash (scan y)) in *.
    assert (Hy : span_len isspace y = O).
    { apply (m_pages_rest (c :: x) (S k) Hm). }
    assert (Hd : span_len isdash (to_endash (scan y)) = O).
    { apply span_len_zero. intros d Hhd.
      pose proof (to_endash_head _ _ Hhd) as Hne.
      destruct (to_endash (scan y)) as [|d' t]; [done|].
      injection Hhd as ->. simpl in Hdd.
      apply orb_false_iff in Hdd as [Hdd _].
      unfold isdash. apply orb_false_iff. split; [by apply N.eqb_neq|].
      change (endash =? endash) with true in Hdd. done. }
    assert (Htail : double_dash (to_endash (scan y)) = false).
    { destruct (to_endash (scan y)) as [|d' t]; [done|].
      simpl in Hdd. by apply orb_false_iff in Hdd as [_ Hdd]. }
    rewrite (re_sub_match _ _ endash (to_endash (scan y)) O).
    + rewrite drop_0, IH; [done | | done].
      unfold y. rewrite length_drop. lia.
    + apply m_pages_single_dash; [|done]. by apply scan_keeps_plain_start.
  - pose proof (m_pages_none_not_dash c x Hm) as Hd.
    rewrite re_sub_nomatch in * by done.
    rewrite map_cons, to_endash_not_dash in * by done.
    assert (Htail : double_dash (to_endash (scan x)) = false).
    { destruct (to_endash (scan x)) as [|d' t]; [done|].
      simpl in Hdd. by apply orb_false_iff in Hdd as [_ Hdd]. }
    rewrite re_sub_nomatch; [f_equal; apply IH; [lia | done]|].
    destruct (isspace c) eqn:Hs.
    + rewrite m_pages_space_cons in * by done.
      destruct (m_pages x) eqn:Hx; [discriminate Hm|].
      by rewrite scan_keeps_no_match.
    + by apply m_pages_plain.
Qed.

Lemma formatter_pages_idem (x : pystr) :
  double_dash (formatter_pages x) = false ->
  formatter_pages (formatter_pages x) = formatter_pages x.
Proof.
  unfold formatter_pages. rewrite !re_sub_hyphen. intros Hdd.
  by rewrite (pages_scan_idem (length x)).
Qed.

(** *** Splitting and joining *)

Lemma forallb_join (p : char -> bool) (sep : pystr) (l : list pystr) :
  forallb p sep = true -> Forall (fun x => forallb p x = true) l ->
  forallb p (join sep l) = true.
Proof.
  intros Hsep. induction 1 as [|x l Hx Hl IH]; [done|].
  destruct l as [|y l]; [done|].
  change (join sep (x :: y :: l)) with (x ++ sep ++ join sep (y :: l)).
  by rewrite !forallb_app, Hx, Hsep, IH.
Qed.

Lemma filter_join (p : char -> bool) (sep : pystr) (l : list pystr) :
  List.filter p (join sep l) =
  join (List.filter p sep) (map (List.filter p) l).
Proof.
  induction l as [|x l IH]; [done|]. destruct l as [|y l]; [done|].
  change (join sep (x :: y :: l)) with (x ++ sep ++ join sep (y :: l)).
  rewrite !List.filter_app, IH. reflexivity.
Qed.

Lemma split_scan_forallb (p : char -> bool) (sep : pystr) (k : nat)
    (cur s : pystr) :
  forallb p cur = true -> forallb p s = true ->
  Forall (fun x => forallb p x = true) (split_scan sep k cur s).
Proof.
  revert k cur. induction s as [|c s IH]; intros k cur Hcur Hs; simpl.
  - by constructor.
  - simpl in Hs. apply andb_true_iff in Hs as [Hc Hs].
    destruct k as [|k]; [|by apply IH].
    destruct (startswith sep (c :: s)).
    + constructor; [done|]. by apply IH.
    + apply IH; [|done]. by rewrite forallb_app, Hcur; simpl; rewrite Hc.
Qed.

Lemma split_scan_not_nil (sep : pystr) (k : nat) (cur s : pystr) :
  split_scan sep k cur s <> [].
Proof.
  revert k cur. induction s as [|c s IH]; intros k cur; simpl; [done|].
  destruct k as [|k]; [|by apply IH].
  destruct (startswith sep (c :: s)); [done | by apply IH].
Qed.

Section SplitChar.
Variable sp : N.

Local Abbreviation no_sp := (forallb (fun c : N => negb (sp =? c))).

Lemma split_scan_char_step (cur : pystr) (c : char) (rest : pystr) :
  split_scan [sp] 0 cur (c :: rest) =
  if sp =? c then cur :: split_scan [sp] 0 [] rest
  else split_scan [sp] 0 (cur ++ [c]) rest.
Proof. simpl. by rewrite andb_true_r. Qed.

(** The pieces hold no separator. *)
Lemma split_scan_char_pieces (cur s : pystr) :
  no_sp cur = true ->
  Forall (fun x => no_sp x = true) (split_scan [sp] 0 cur s).
Proof.
  revert cur. induction s as [|c s IH]; intros cur Hcur.
  - by constructor.
  - rewrite split_scan_char_step. destruct (sp =? c) eqn:Hc.
    + constructor; [done|]. by apply IH.
    + apply IH. by rewrite forallb_app, Hcur; simpl; rewrite Hc.
Qed.

Lemma split_scan_char_piece (cur tok : pystr) :
  no_sp tok = true -> split_scan [sp] 0 cur tok = [cur ++ tok].
Proof.
  revert cur. induction tok as [|c tok IH]; intros cur Htok.
  - by rewrite app_nil_r.
  - simpl in Htok. apply andb_true_iff in Htok as [Hc%negb_true_iff Htok].
    rewrite split_scan_char_step, Hc, IH by done.
    by rewrite <- app_assoc.
Qed.

Lemma split_scan_char_sep (cur tok rest : pystr) :
  no_sp tok = true ->
  split_scan [sp] 0 cur (tok ++ sp :: rest) =
  (cur ++ tok) :: split_scan [sp] 0 [] rest.
Proof.
  revert cur. induction tok as [|c tok IH]; intros cur Htok.
  - simpl app. by rewrite split_scan_char_step, N.eqb_refl, app_nil_r.
  - simpl in Htok. apply andb_true_iff in Htok as [Hc%negb_true_iff Htok].
    simpl app. rewrite split_scan_char_step, Hc, IH by done.
    by rewrite <- app_assoc.
Qed.

(** Splitting what was joined gives the pieces back. *)
Lemma split_join_char (toks : list pystr) :
  toks <> [] -> Forall (fun x => no_sp x = true) toks ->
  str_split [sp] (join [sp] toks) = toks.
Proof.
  intros Hne Htoks. unfold str_split.
  induction Htoks as [|x l Hx Hl IH]; [done|].
  destruct l as [|y l].
  - by apply split_scan_char_piece.
  - change (join [sp] (x :: y :: l)) with (x ++ sp :: join [sp] (y :: l)).
    rewrite split_scan_char_sep by done. f_equal. by apply IH.
Qed.
End SplitChar.

(** *** Newlines *)

Lemma sub_scan_cons (m : list N -> option nat) (repl : pystr) (c : char)
    (s : pystr) :
  sub_scan m repl 0 (c :: s) =
  match m (c :: s) with
  | Some (S k) => repl ++ sub_scan m repl k s
  | _ => c :: sub_scan m repl 0 s
  end.
Proof. reflexivity. Qed.

Lemma m_newlines_cons (c : char) (s : pystr) :
  m_newlines (c :: s) =
  if newline =? c then Some (S (span_len (N.eqb newline) s)) else None.
Proof.
  unfold m_newlines.
  change (span_len (N.eqb newline) (c :: s))
    with (if newline =? c then S (span_len (N.eqb newline) s) else O).
  by destruct (newline =? c).
Qed.

Lemma nl_free_sub_newlines (repl : pystr) (k : nat) (s : pystr) :
  nl_free repl -> nl_free (sub_scan m_newlines repl k s).
Proof.
  intros Hr. unfold nl_free in *. revert k.
  induction s as [|c s IH]; intros k; [done|].
  destruct k as [|k]; [|by apply IH].
  rewrite sub_scan_cons, m_newlines_cons. destruct (newline =? c) eqn:Hc.
  - by rewrite forallb_app, Hr, IH.
  - change (forallb ?p (c :: ?l)) with (p c && forallb p l).
    cbv beta. by rewrite Hc, IH.
Qed.

Lemma m_newlines_none (t : pystr) : nl_free t -> m_newlines t = None.
Proof.
  unfold nl_free. destruct t as [|c t]; [done|].
  rewrite m_newlines_cons.
  change (forallb ?p (c :: t)) with (p c && forallb p t). cbv beta.
  intros [Hc%negb_true_iff _]%andb_true_iff. by rewrite Hc.
Qed.

Lemma re_sub_newlines_id (repl s : pystr) :
  nl_free s -> re_sub m_newlines repl s = s.
Proof.
  intros Hs. apply re_sub_id. intros pre t ->. apply m_newlines_none.
  unfold nl_free in *. rewrite forallb_app in Hs.
  by apply andb_true_iff in Hs as [_ Hs].
Qed.

Lemma nl_free_formatter_pages (v : pystr) :
  nl_free v -> nl_free (formatter_pages v).
Proof.
  intros Hv. unfold formatter_pages, re_sub, nl_free.
  apply sub_scan_forallb; [done|]. by apply sub_scan_forallb.
Qed.

Section Idempotence.
Context `{Unicode}.

Lemma forallb_capitalize (p : char -> bool) (r : pystr) :
  p lbrace = true -> p rbrace = true -> forallb p r = true ->
  forallb p (capitalize r) = true.
Proof.
  intros Hl Hr Hp. unfold capitalize. destruct (existsb isupper r); [|done].
  simpl. by rewrite Hl, forallb_app, Hp; simpl; rewrite Hr.
Qed.

Lemma nl_free_formatter_title (v : pystr) :
  nl_free v -> nl_free (formatter_title v).
Proof.
  intros Hv. unfold formatter_title, nl_free.
  apply forallb_join; [done|]. apply Forall_map.
  eapply Forall_impl.
  - apply (split_scan_forallb (fun c => negb (newline =? c))); [done|].
    unfold re_sub. by apply sub_scan_forallb.
  - intros tok Htok. by apply forallb_capitalize.
Qed.

Lemma filter_brace_free (s : pystr) :
  forallb (fun c => negb (isbrace c)) s = true ->
  List.filter (fun c => negb (isbrace c)) s = s.
Proof.
  induction s as [|c s IH]; [done|]. simpl.
  intros [Hc Hs]%andb_true_iff. by rewrite Hc, IH.
Qed.

Lemma strip_capitalize (r : pystr) :
  forallb (fun c => negb (isbrace c)) r = true ->
  List.filter (fun c => negb (isbrace c)) (capitalize r) = r.
Proof.
  intros Hr. unfold capitalize. destruct (existsb isupper r).
  - change (lbrace :: r ++ [rbrace]) with ([lbrace] ++ r ++ [rbrace]).
    rewrite !List.filter_app, (filter_brace_free r Hr).
    change (List.filter _ [lbrace]) with (@nil N).
    change (List.filter _ [rbrace]) with (@nil N).
    by rewrite app_nil_r.
  - by apply filter_brace_free.
Qed.

(** Titles: the markers are removed, then put back on the same words. *)
Lemma formatter_title_idem (w : pystr) :
  formatter_title (formatter_title w) = formatter_title w.
Proof.
  unfold formatter_title.
  set (toks := str_split (py " ") (re_sub m_brace [] w)).
  assert (Hbr : Forall (fun x => forallb (fun c => negb (isbrace c)) x = true)
                  toks).
  { apply split_scan_forallb; [done|]. apply brace_free_strip. }
  assert (Hsp : Forall (fun x => forallb (fun c => negb (32 =? c)) x = true)
                  toks).
  { by apply (split_scan_char_pieces 32). }
  assert (Hne : toks <> []) by apply split_scan_not_nil.
  rewrite re_sub_brace, filter_join, map_map.
  change (List.filter (fun c => negb (isbrace c)) (py " ")) with (py " ").
  assert (Hmap : map (fun x => List.filter (fun c => negb (isbrace c))
                                (capitalize x)) toks = toks).
  { clear Hsp Hne. induction Hbr as [|tok l Htok Hl IH]; [done|].
    by rewrite map_cons, strip_capitalize, IH. }
  rewrite Hmap.
  change (py " ") with [32] at 2 3.
  by rewrite (split_join_char 32).
Qed.

Lemma formatter_field_idem (key v : pystr) :
  (key = py "pages" -> double_dash (formatter_field key v) = false) ->
  formatter_field key (formatter_field key v) = formatter_field key v.
Proof.
  unfold formatter_field.
  assert (Hnl : nl_free (re_sub m_newlines (py " ") v)).
  { by apply nl_free_sub_newlines. }
  set (v1 := re_sub m_newlines (py " ") v) in *.
  destruct (decide (key = py "pages")) as [-> | Hpages].
  - change (bool_decide (py "pages" = py "title")
            || bool_decide (py "pages" = py "booktitle")) with false.
    rewrite bool_decide_eq_true_2 by done. cbv iota.
    intros Hdd. specialize (Hdd eq_refl).
    rewrite re_sub_newlines_id by (by apply nl_free_formatter_pages).
    by apply formatter_pages_idem.
  - intros _. rewrite (bool_decide_eq_false_2 (key = py "pages")) by done.
    destruct (bool_decide (key = py "title")
              || bool_decide (key = py "booktitle")).
    + rewrite re_sub_newlines_id by (by apply nl_free_formatter_title).
      apply formatter_title_idem.
    + by apply re_sub_newlines_id.
Qed.

Lemma formatter_lookup (e : entry) (key : pystr) :
  formatter e !! key = formatter_field key <$> e !! key.
Proof.
  unfold formatter. rewrite map_lookup_imap. by destruct (e !! key).
Qed.
End Idempotence.

(** C5, as the code has it.  Normalising a record a second time changes
    nothing, provided its normalised [pages] hold no two en-dashes in a
    row: the newline and the title rules are idempotent on every value,
    and ["12–34"] stays ["12–34"]. *)
Theorem formatter_idempotent `{Unicode} (e : entry) :
  (forall p, formatter e !! py "pages" = Some p -> double_dash p = false) ->
  formatter (formatter e) = formatter e.
Proof.
  intros Hpages. apply map_eq. intros key.
  rewrite (formatter_lookup (formatter e)), formatter_lookup.
  destruct (e !! key) as [v|] eqn:Hv; [|done]. simpl. f_equal.
  apply formatter_field_idem. intros ->. apply Hpages.
  by rewrite formatter_lookup, Hv.
Qed.

Lemma formatter_idempotent_witness :
  @formatter ascii_case (@formatter ascii_case e_article) =
  @formatter ascii_case e_article.
Proof.
  apply (@formatter_idempotent ascii_case e_article).
  intros p Hp. vm_compute in Hp. injection Hp as <-. reflexivity.
Defined.

(** C5 as stated fails: the pages ["1- -2"] become ["1––2"], and these
    become ["1–2"]. *)
Lemma pages_not_idempotent :
  @formatter ascii_case e_double !! py "pages" =
    Some (py "1" ++ [endash; endash] ++ py "2") /\
  @formatter ascii_case (@formatter ascii_case e_double) !! py "pages" =
    Some (py "1" ++ [endash] ++ py "2").
Proof. split; vm_compute; reflexivity. Qed.

Example title_twice :
  @formatter_title ascii_case (py "{A} study of BibTeX files") =
    py "{A} study of {BibTeX} files" /\
  @formatter_title ascii_case (py "{A} study of {BibTeX} files") =
    py "{A} study of {BibTeX} files".
Proof. split; vm_compute; reflexivity. Qed.

(** ** author2html: the claim *)

Lemma m_literal_cons_length (a : char) (old t : pystr) :
  m_literal (a :: old) t =
  if startswith (a :: old) t then Some (S (length old)) else None.
Proof. reflexivity. Qed.


Lemma startswith_app_notin (old x : pystr) (c : char) (rest : pystr) :
  forallb (fun d => negb (c =? d)) old = true ->
  startswith old (x ++ c :: rest) = startswith old x.
Proof.
  revert x. induction old as [|a old IH]; intros x Hold; [done|].
  simpl in Hold. apply andb_true_iff in Hold as [Ha%negb_true_iff Hold].
  destruct x as [|b x]; simpl.
  - rewrite N.eqb_sym in Ha. by rewrite Ha.
  - by rewrite IH.
Qed.

Lemma startswith_length (old x : pystr) :
  startswith old x = true -> (length old <= length x)%nat.
Proof.
  intros [r ->]%startswith_spec. rewrite length_app. lia.
Qed.

(** A character that is not in [old] separates the occurrences of
    [old]. *)
Lemma replace_app_sep (a : char) (old new : pystr) (c : char) (k : nat)
    (x rest : pystr) :
  forallb (fun d => negb (c =? d)) (a :: old) = true ->
  (k <= length x)%nat ->
  sub_scan (m_literal (a :: old)) new k (x ++ c :: rest) =
  sub_scan (m_literal (a :: old)) new k x ++
  c :: sub_scan (m_literal (a :: old)) new 0 rest.
Proof.
  intros Hc. revert k. induction x as [|b x IH]; intros k Hk.
  - simpl in Hk. assert (k = O) as -> by lia.
    change ([] ++ c :: rest) with (c :: rest).
    rewrite sub_scan_cons, m_literal_cons_length.
    change (c :: rest) with ([] ++ c :: rest) at 1.
    rewrite (startswith_app_notin (a :: old) [] c rest Hc). reflexivity.
  - destruct k as [|k].
    + change ((b :: x) ++ c :: rest) with (b :: x ++ c :: rest).
      rewrite !sub_scan_cons, !m_literal_cons_length.
      change (b :: x ++ c :: rest) with ((b :: x) ++ c :: rest).
      rewrite (startswith_app_notin (a :: old) (b :: x) c rest Hc).
      destruct (startswith (a :: old) (b :: x)) eqn:Hs.
      * apply startswith_length in Hs. simpl in Hs.
        rewrite IH by lia. by rewrite app_assoc.
      * rewrite IH by lia. reflexivity.
    + simpl in Hk. apply (IH k). lia.
Qed.







(** The example of the specification. *)
Example author2html_example :
  author2html (py "Smith, J. and Heinrich, Philipp") =
  py "Smith, J.; <u>Heinrich, Philipp</u>".
Proof. vm_compute. reflexivity. Qed.


(** * Further properties *)

(** ** The renderers *)

(** X1.  An entry whose type is none of the six that [bibtex2html]
    dispatches on makes it raise
    [NotImplementedError("ENTRYTYPE <type> not supported")]; nothing is
    printed. *)
Theorem unsupported_entry_type (isfile : list N -> bool) (e : entry)
    (pdf_dir t : pystr) :
  e !! py "ENTRYTYPE" = Some t -> t ∉ renderer_types ->
  bibtex2html isfile e pdf_dir =
  ([], Raise (NotImplementedError (py "ENTRYTYPE " ++ t ++ py " not supported"))).
Proof.
  intros Ht Hnot. unfold bibtex2html, dispatch, get. rewrite Ht.
  assert (Hne : forall s, s ∈ renderer_types -> t <> s).
  { intros s Hs ->. done. }
  unfold renderer_types in Hne.
  cbv beta iota delta [mbind result_bind].
  rewrite !bool_decide_eq_false_2; [done | ..];
    apply Hne; apply list_elem_of_In; simpl; tauto.
Qed.

Lemma unsupported_entry_type_witness :
  bibtex2html no_file e_thesis (py "pdf/") =
  ([], Raise (NotImplementedError
                (py "ENTRYTYPE " ++ py "phdthesis" ++ py " not supported"))).
Proof.
  apply unsupported_entry_type.
  - vm_compute. reflexivity.
  - intros Hin. apply list_elem_of_In in Hin. vm_compute in Hin.
    repeat destruct Hin as [Hin | Hin]; try discriminate Hin. done.
Defined.

(** X2.  A book or proceedings entry with neither [author] nor [editor]
    makes [bibtex2html] fail with [UnboundLocalError]: the handler for
    [KeyError] does not catch it, and the entry is not printed. *)
Theorem book_without_author_or_editor (isfile : list N -> bool) (e : entry)
    (pdf_dir t : pystr) :
  e !! py "ENTRYTYPE" = Some t -> t = py "book" \/ t = py "proceedings" ->
  e !! py "author" = None -> e !! py "editor" = None ->
  bibtex2html isfile e pdf_dir = ([], Raise (UnboundLocalError (py "author"))).
Proof.
  intros Ht Hbook Ha He. unfold bibtex2html.
  rewrite (dispatch_book e t Ht Hbook).
  unfold book2html, has_key. rewrite Ha, He. reflexivity.
Qed.

Lemma book_without_author_or_editor_witness :
  bibtex2html no_file
    (mk_entry [("ENTRYTYPE", "proceedings"); ("ID", "p1"); ("title", "T");
               ("year", "2020")]%string) (py "pdf/") =
  ([], Raise (UnboundLocalError (py "author"))).
Proof.
  apply (book_without_author_or_editor _ _ _ (py "proceedings"));
    first [by right | vm_compute; reflexivity].
Defined.

(** X3.  [book2html] prefers the author: when the entry has an [author],
    its [editor] plays no part in the citation. *)
Theorem book_author_preferred (e : entry) (a : pystr) :
  e !! py "author" = Some a ->
  book2html (delete (py "editor") e) = book2html e.
Proof.
  intros Ha. unfold book2html, has_key, get.
  rewrite !lookup_delete_ne by py_neq. rewrite Ha. reflexivity.
Qed.

Lemma book_author_preferred_witness :
  book2html (delete (py "editor")
    (mk_entry [("ENTRYTYPE", "book"); ("ID", "b1"); ("author", "A, B.");
               ("editor", "C, D."); ("title", "T"); ("year", "2020");
               ("address", "X"); ("publisher", "P")]%string)) =
  book2html
    (mk_entry [("ENTRYTYPE", "book"); ("ID", "b1"); ("author", "A, B.");
               ("editor", "C, D."); ("title", "T"); ("year", "2020");
               ("address", "X"); ("publisher", "P")]%string).
Proof.
  apply (book_author_preferred _ (py "A, B.")). vm_compute. reflexivity.
Defined.

Ltac in_required :=
  apply list_elem_of_In; vm_compute; repeat (first [by left | right]).

(** With all its fields, a renderer returns a citation. *)
Lemma dispatch_complete (e : entry) (t : pystr) :
  e !! py "ENTRYTYPE" = Some t -> t ∈ renderer_types ->
  (forall f, f ∈ required t -> is_Some (e !! f)) ->
  (t = py "book" \/ t = py "proceedings" ->
   is_Some (e !! py "author") \/ is_Some (e !! py "editor")) ->
  exists body, dispatch e = Ok body.
Proof.
  intros Ht Hin Hall Hbook. unfold renderer_types in Hin.
  repeat (apply elem_of_cons in Hin as [-> | Hin]);
    [.. | by apply not_elem_of_nil in Hin].
  - rewrite dispatch_article by done. unfold article2html, has_key, get.
    destruct (Hall (py "volume")) as [? ->]; [in_required|].
    destruct (Hall (py "author")) as [? ->]; [in_required|].
    destruct (Hall (py "year")) as [? ->]; [in_required|].
    destruct (Hall (py "title")) as [? ->]; [in_required|].
    destruct (Hall (py "journal")) as [? ->]; [in_required|].
    destruct (Hall (py "pages")) as [? ->]; [in_required|].
    destruct (e !! py "number"); eexists; reflexivity.
  - rewrite (dispatch_book e (py "book")) by auto.
    unfold book2html, has_key, get.
    destruct (Hall (py "year")) as [? ->]; [in_required|].
    destruct (Hall (py "title")) as [? ->]; [in_required|].
    destruct (Hall (py "address")) as [? ->]; [in_required|].
    destruct (Hall (py "publisher")) as [? ->]; [in_required|].
    destruct Hbook as [[? Ha] | [? He]]; [by left | |].
    + rewrite Ha. eexists. reflexivity.
    + rewrite He. destruct (e !! py "author"); eexists; reflexivity.
  - rewrite (dispatch_book e (py "proceedings")) by auto.
    unfold book2html, has_key, get.
    destruct (Hall (py "year")) as [? ->]; [in_required|].
    destruct (Hall (py "title")) as [? ->]; [in_required|].
    destruct (Hall (py "address")) as [? ->]; [in_required|].
    destruct (Hall (py "publisher")) as [? ->]; [in_required|].
    destruct Hbook as [[? Ha] | [? He]]; [by right | |].
    + rewrite Ha. eexists. reflexivity.
    + rewrite He. destruct (e !! py "author"); eexists; reflexivity.
  - rewrite dispatch_inproceedings by done.
    unfold inproceedings2html, get.
    destruct (Hall (py "author")) as [? ->]; [in_required|].
    destruct (Hall (py "year")) as [? ->]; [in_required|].
    destruct (Hall (py "title")) as [? ->]; [in_required|].
    destruct (Hall (py "booktitle")) as [? ->]; [in_required|].
    destruct (Hall (py "pages")) as [? ->]; [in_required|].
    destruct (Hall (py "address")) as [? ->]; [in_required|].
    eexists. reflexivity.
  - rewrite dispatch_incollection by done.
    unfold incollection2html, get.
    destruct (Hall (py "author")) as [? ->]; [in_required|].
    destruct (Hall (py "year")) as [? ->]; [in_required|].
    destruct (Hall (py "title")) as [? ->]; [in_required|].
    destruct (Hall (py "booktitle")) as [? ->]; [in_required|].
    destruct (Hall (py "editor")) as [? ->]; [in_required|].
    destruct (Hall (py "pages")) as [? ->]; [in_required|].
    destruct (Hall (py "address")) as [? ->]; [in_required|].
    destruct (Hall (py "publisher")) as [? ->]; [in_required|].
    eexists. reflexivity.
  - rewrite dispatch_misc by done. unfold misc2html, get.
    destruct (Hall (py "author")) as [? ->]; [in_required|].
    destruct (Hall (py "year")) as [? ->]; [in_required|].
    destruct (Hall (py "title")) as [? ->]; [in_required|].
    destruct (Hall (py "howpublished")) as [? ->]; [in_required|].
    eexists. reflexivity.
Qed.

(** X4.  For an entry of one of the six types that has its citation key
    (and, for a book or the proceedings, an author or an editor),
    [bibtex2html] returns a citation, printing nothing, exactly when the
    entry has every field that its renderer reads. *)
Theorem rendering_succeeds_iff (isfile : list N -> bool) (e : entry)
    (pdf_dir t : pystr) :
  e !! py "ENTRYTYPE" = Some t -> t ∈ renderer_types ->
  is_Some (e !! py "ID") ->
  (t = py "book" \/ t = py "proceedings" ->
   is_Some (e !! py "author") \/ is_Some (e !! py "editor")) ->
  (exists out, bibtex2html isfile e pdf_dir = ([], Ok out)) <->
  (forall f, f ∈ required t -> is_Some (e !! f)).
Proof.
  intros Ht Hin [id Hid] Hbook. split.
  - intros [out Hout] f Hf. destruct (e !! f) as [v|] eqn:Hv; [by eexists|].
    destruct (missing_field_KeyError e t f Ht Hf Hv Hbook) as [k Hk].
    unfold bibtex2html in Hout. rewrite Hk in Hout. discriminate Hout.
  - intros Hall.
    destruct (dispatch_complete e t Ht Hin Hall Hbook) as [body Hbody].
    unfold bibtex2html. rewrite Hbody. unfold lift, decorate, get.
    rewrite Hid. eexists. reflexivity.
Qed.

Lemma rendering_succeeds_iff_witness :
  (exists out, bibtex2html no_file e_misc (py "pdf/") = ([], Ok out)) <->
  (forall f, f ∈ required (py "misc") -> is_Some (e_misc !! f)).
Proof.
  apply rendering_succeeds_iff.
  - vm_compute. reflexivity.
  - in_required.
  - vm_compute. eauto.
  - intros [Hx | Hx]; vm_compute in Hx; discriminate Hx.
Defined.

(** ** Groupings *)

Lemma flat_map_filter_nil {A} (key : A -> list N) (ks : list pystr) :
  flat_map (fun k => filter (fun x => key x = k) (@nil A)) ks = [].
Proof. induction ks as [|k ks IH]; [done|]. simpl. by rewrite IH. Qed.

Lemma flat_map_filter_cons {A} (key : A -> list N) (ks : list pystr)
    (x : A) (l : list A) :
  NoDup ks ->
  flat_map (fun k => filter (fun y => key y = k) (x :: l)) ks ≡ₚ
  (if decide (key x ∈ ks) then [x] else []) ++
  flat_map (fun k => filter (fun y => key y = k) l) ks.
Proof.
  induction 1 as [|k ks Hk Hnd IH]; [done|].
  simpl flat_map. rewrite IH, filter_cons.
  destruct (decide (key x = k)) as [<- | Hne].
  - destruct (decide (key x ∈ key x :: ks)) as [_ | Hn];
      [|exfalso; apply Hn; left].
    destruct (decide (key x ∈ ks)); [done|]. reflexivity.
  - destruct (decide (key x ∈ ks)) as [Hin | Hnin].
    + destruct (decide (key x ∈ k :: ks)) as [_ | Hn];
        [|exfalso; apply Hn; by right].
      simpl. by rewrite <- Permutation_middle.
    + destruct (decide (key x ∈ k :: ks)) as [Hn | _]; [|done].
      apply elem_of_cons in Hn as [Heq | Hin]; done.
Qed.

(** Walking all the keys, group by group, reads every element once. *)
Lemma flat_map_filter_perm {A} (key : A -> list N) (ks : list pystr)
    (l : list A) :
  NoDup ks -> (forall x, x ∈ l -> key x ∈ ks) ->
  flat_map (fun k => filter (fun x => key x = k) l) ks ≡ₚ l.
Proof.
  intros Hnd. induction l as [|x l IH]; intros Hks.
  - by rewrite flat_map_filter_nil.
  - rewrite flat_map_filter_cons by done.
    rewrite decide_True by (apply Hks; left). simpl.
    rewrite IH; [done|]. intros y Hy. apply Hks. by right.
Qed.

Lemma sorted_NoDup {A} (d : gmap (list N) A) : NoDup (sorted d).
Proof. unfold sorted. rewrite sort_by_perm. apply NoDup_elements. Qed.


Section Groupings.
Context `{Unicode}.

(** A loop that ends well took every step well. *)
Lemma order_loop_ok_steps (order : pystr) (db : list entry)
    (col col' : gmap (list N) (list entry)) (e : entry) :
  order_loop order col db = Ok col' -> e ∈ db ->
  exists c c', order_step order c e = Ok c'.
Proof.
  revert col. induction db as [|e' db IH]; intros col Hloop Hin.
  - by apply not_elem_of_nil in Hin.
  - simpl in Hloop.
    destruct (order_step order col e') as [c1|] eqn:Hstep; [|done].
    apply elem_of_cons in Hin as [-> | Hin]; [by eauto|].
    by apply (IH c1).
Qed.

Lemma order_step_ok_key (order : pystr) (e : entry)
    (c0 c0' c : gmap (list N) (list entry)) :
  order = py "ENTRYTYPE" \/ order = py "date" ->
  order_step order c0 e = Ok c0' ->
  order_step order c e = Ok (col_append (group_key order e) e c).
Proof.
  intros [-> | ->] Hstep; unfold group_key.
  - rewrite order_step_entrytype in *.
    rewrite bool_decide_eq_false_2 by py_neq.
    destruct (match e !! py "note" with Some _ => _ | None => _ end);
      [done|].
    by destruct (e !! py "ENTRYTYPE").
  - rewrite order_step_date in *. rewrite bool_decide_eq_true_2 by done.
    unfold date_key. destruct (e !! py "date"); [done|].
    by destruct (e !! py "year").
Qed.

Lemma order_db_groups (db : list entry) (order : pystr)
    (col : gmap (list N) (list entry)) :
  order = py "ENTRYTYPE" \/ order = py "date" ->
  order_db db order = Ok col ->
  (forall k, col_get col k = filter (fun e => group_key order e = k) db) /\
  dom col = list_to_set (group_key order <$> db).
Proof.
  intros Horder Hdb.
  destruct (order_loop_keyed order (group_key order) db ∅)
    as (col' & Hloop & Hget & Hdom).
  { intros e c He.
    destruct (order_loop_ok_steps order db ∅ col e Hdb He) as (c0 & c0' & Hs).
    by eapply order_step_ok_key. }
  unfold order_db in Hdb. rewrite Hdb in Hloop. injection Hloop as <-.
  split.
  - intros k. rewrite Hget. unfold col_get at 1. by rewrite lookup_empty.
  - rewrite Hdom, dom_empty_L.
    apply (left_id_L (∅ : gset (list N)) (∪)).
Qed.
End Groupings.

(** X5.  In both modes, [order_db] is a partition of the database: read
    group by group, the grouping holds every record exactly once, and no
    group is empty. *)
Theorem order_db_partition `{Unicode} (db : list entry) (order : pystr)
    (col : gmap (list N) (list entry)) :
  order = py "ENTRYTYPE" \/ order = py "date" ->
  order_db db order = Ok col ->
  flat_map (col_get col) (sorted col) ≡ₚ db /\
  forall k, k ∈ sorted col <-> col_get col k <> [].
Proof.
  intros Horder Hdb.
  destruct (order_db_groups db order col Horder Hdb) as [Hget Hdom].
  assert (Hkeys : forall k, k ∈ dom col <-> exists e, e ∈ db /\ group_key order e = k).
  { intros k. rewrite Hdom, elem_of_list_to_set, list_elem_of_fmap.
    split; intros (e & He1 & He2); exists e; done. }
  split.
  - rewrite (flat_map_ext _ (fun k => filter (fun e => group_key order e = k) db))
      by (intros k; apply Hget).
    apply flat_map_filter_perm; [apply sorted_NoDup|].
    intros e He. apply elem_of_sorted, Hkeys. by exists e.
  - intros k. rewrite elem_of_sorted, Hkeys, Hget. split.
    + intros (e & He & Hk) Hnil.
      assert (Hin : e ∈ filter (fun e => group_key order e = k) db)
        by (by apply list_elem_of_filter).
      rewrite Hnil in Hin. by apply not_elem_of_nil in Hin.
    + intros Hne.
      destruct (filter (fun e => group_key order e = k) db) as [|e l] eqn:Hf;
        [done|].
      assert (Hin : e ∈ filter (fun e => group_key order e = k) db)
        by (rewrite Hf; left).
      apply list_elem_of_filter in Hin as [Hk He]. by exists e.
Qed.

Lemma order_db_partition_witness :
  flat_map (col_get {[ py "article" := [e_article]; py "misc" := [e_misc] ]})
    (sorted ({[ py "article" := [e_article]; py "misc" := [e_misc] ]}
             : gmap (list N) (list entry)))
  ≡ₚ [e_misc; e_article] /\
  forall k,
    k ∈ sorted ({[ py "article" := [e_article]; py "misc" := [e_misc] ]}
                : gmap (list N) (list entry)) <->
    col_get {[ py "article" := [e_article]; py "misc" := [e_misc] ]} k <> [].
Proof.
  apply (@order_db_partition ascii_case [e_misc; e_article] (py "ENTRYTYPE")).
  - by left.
  - vm_compute. reflexivity.
Defined.

(** ** The listing by date *)









(** ** The normaliser and the loader *)

(** X7.  [formatter] keeps the set of fields, and leaves alone every
    value without a newline whose field is none of [title], [booktitle]
    and [pages]: the citation key and the entry type of a parsed record
    pass unchanged. *)
Theorem formatter_keeps_fields `{Unicode} (e : entry) :
  dom (formatter e) = dom e /\
  forall key v,
    e !! key = Some v ->
    key <> py "title" -> key <> py "booktitle" -> key <> py "pages" ->
    nl_free v ->
    formatter e !! key = Some v.
Proof.
  split.
  - apply set_eq. intros key. rewrite !elem_of_dom, formatter_lookup.
    destruct (e !! key); simpl; split; intros [x Hx]; by eauto.
  - intros key v Hv Ht Hb Hp Hnl. rewrite formatter_lookup, Hv. simpl.
    f_equal. unfold formatter_field.
    rewrite !bool_decide_eq_false_2 by done. simpl.
    by apply re_sub_newlines_id.
Qed.

Lemma formatter_keeps_fields_witness :
  @formatter ascii_case e_article !! py "ID" = Some (py "heinrich2021").
Proof.
  apply (proj2 (@formatter_keeps_fields ascii_case e_article));
    first [py_neq | reflexivity].
Defined.

Lemma newline_becomes_space (t : pystr) :
  forallb (fun c => negb (newline =? c)) t = false ->
  32 ∈ re_sub m_newlines (py " ") t.
Proof.
  induction t as [|c t IH]; [done|].
  change (forallb ?p (c :: t)) with (p c && forallb p t). cbv beta.
  unfold re_sub. rewrite sub_scan_cons, m_newlines_cons.
  destruct (newline =? c); simpl negb; simpl andb.
  - intros _. left.
  - intros Ht. right. by apply IH.
Qed.

Lemma re_sub_newlines_comment (t : pystr) :
  re_sub m_newlines (py " ") t = py "comment" -> t = py "comment".
Proof.
  intros Ht.
  destruct (forallb (fun c => negb (newline =? c)) t) eqn:Hnl.
  - by rewrite re_sub_newlines_id in Ht.
  - apply newline_becomes_space in Hnl. rewrite Ht in Hnl.
    apply list_elem_of_In in Hnl. vm_compute in Hnl.
    repeat destruct Hnl as [Hnl | Hnl]; try discriminate Hnl. done.
Qed.

Lemma consistencize_entries_spec `{Unicode} (parsed db : list entry) :
  consistencize_entries parsed = Ok db ->
  db = formatter <$> filter (fun e => is_comment e = false) parsed /\
  Forall (fun e => is_Some (e !! py "ENTRYTYPE")) parsed.
Proof.
  revert db. induction parsed as [|e parsed IH]; intros db; simpl.
  - intros [= <-]. split; [done | constructor].
  - unfold get.
    destruct (e !! py "ENTRYTYPE") as [t|] eqn:Ht; simpl; [|done].
    destruct (consistencize_entries parsed) as [rest|]; simpl; [|done].
    intros [= <-]. destruct (IH rest eq_refl) as [-> Hall].
    split; [|constructor; by eauto].
    rewrite filter_cons.
    destruct (decide (t = py "comment")) as [-> | Hne].
    + assert (Hc : is_comment e = true).
      { unfold is_comment. by rewrite Ht, bool_decide_eq_true_2. }
      rewrite bool_decide_eq_false_2 by (intros Hx; by apply Hx).
      destruct (decide (is_comment e = false)) as [Hf | _]; [congruence|].
      reflexivity.
    + assert (Hc : is_comment e = false).
      { unfold is_comment. rewrite Ht, bool_decide_eq_false_2; congruence. }
      rewrite bool_decide_eq_true_2 by done.
      destruct (decide (is_comment e = false)) as [_ | Hf]; [|congruence].
      reflexivity.
Qed.

Lemma read_many_bibs_spec `{Unicode} (paths_in : list pystr)
    (parsed db : list entry) :
  read_many_bibs paths_in parsed true = Ok db ->
  length parsed = length paths_in /\
  db = formatter <$> filter (fun e => is_comment e = false) parsed /\
  Forall (fun e => is_Some (e !! py "ENTRYTYPE") /\
                   e !! py "ENTRYTYPE" <> Some (py "comment")) db.
Proof.
  unfold read_many_bibs. case_bool_decide as Hlen; [|done]. intros Hdb.
  destruct (consistencize_entries_spec parsed db Hdb) as [-> Hall].
  split; [done|]. split; [done|]. apply Forall_fmap, Forall_forall.
  intros e [Hc He]%list_elem_of_filter. simpl.
  rewrite Forall_forall in Hall. destruct (Hall e He) as [t Ht].
  rewrite formatter_lookup, Ht. simpl. split; [by eauto|].
  intros [= Hx]. unfold formatter_field in Hx.
  rewrite !bool_decide_eq_false_2 in Hx by py_neq. simpl in Hx.
  apply re_sub_newlines_comment in Hx. subst t.
  unfold is_comment in Hc. by rewrite Ht, bool_decide_eq_true_2 in Hc.
Qed.

(** X8.  What [read_many_bibs] returns is the parsed entries without
    those of type [comment], each one formatted, in the order of the
    parser; every record it returns has an entry type, and none is a
    comment. *)
Theorem read_many_bibs_records `{Unicode} (paths_in : list pystr)
    (parsed db : list entry) :
  read_many_bibs paths_in parsed true = Ok db ->
  db = formatter <$> filter (fun e => is_comment e = false) parsed /\
  Forall (fun e => is_Some (e !! py "ENTRYTYPE") /\
                   e !! py "ENTRYTYPE" <> Some (py "comment")) db.
Proof.
  intros Hdb. by destruct (read_many_bibs_spec paths_in parsed db Hdb) as [_ ?].
Qed.

Lemma read_many_bibs_records_witness :
  [@formatter ascii_case e_misc] =
    @formatter ascii_case <$>
      filter (fun e => is_comment e = false) [e_comment; e_misc] /\
  Forall (fun e => is_Some (e !! py "ENTRYTYPE") /\
                   e !! py "ENTRYTYPE" <> Some (py "comment"))
    [@formatter ascii_case e_misc].
Proof.
  apply (@read_many_bibs_records ascii_case [py "a.bib"; py "b.bib"]).
  vm_compute. reflexivity.
Defined.

(** C4.  When the loading step accepts a set of input files, the
    records left after the normaliser, none of which is a comment, are as
    many as the files.  The paths are distinct, as [glob] returns them,
    and [parsed] holds no entry of the type [comment]: [bibtexparser]
    keeps the [@comment] blocks apart, in [db.comments]. *)
Theorem read_many_bibs_count `{Unicode}
    (paths_in : list pystr) (parsed db : list entry) :
  NoDup paths_in ->
  Forall (fun e => is_comment e = false) parsed ->
  read_many_bibs paths_in parsed true = Ok db ->
  length (filter (fun e => is_comment e = false) db) =
  size (list_to_set paths_in : gset (list N)).
Proof.
  intros Hnd Hparsed Hdb.
  destruct (read_many_bibs_spec paths_in parsed db Hdb) as (Hlen & Heq & Hall).
  assert (Hkeep : forall l : list entry,
    Forall (fun e => is_comment e = false) l ->
    filter (fun e => is_comment e = false) l = l).
  { induction 1 as [|e l He Hl IH]; [done|].
    by rewrite filter_cons_True, IH. }
  rewrite Hkeep.
  - rewrite Heq, Hkeep, length_fmap, Hlen by done.
    symmetry. by apply size_list_to_set.
  - eapply Forall_impl; [exact Hall|]. intros e [_ He].
    unfold is_comment. by apply bool_decide_eq_false_2.
Qed.

Lemma read_many_bibs_count_witness :
  length (filter (fun e => is_comment e = false)
            [@formatter ascii_case e_article; @formatter ascii_case e_misc]) =
  size (list_to_set [py "bib/a.bib"; py "bib/b.bib"] : gset (list N)).
Proof.
  apply (@read_many_bibs_count ascii_case _ [e_article; e_misc]).
  - apply NoDup_cons. split; [|apply NoDup_singleton].
    intros Hin%list_elem_of_singleton. vm_compute in Hin. discriminate Hin.
  - repeat constructor.
  - vm_compute. reflexivity.
Defined.

(** X9.  Without input files, [main] still writes its three files: an
    empty table, a BIB file with nothing in it, and the HTML page with
    its seven headings, each over an empty list. *)
Theorem main_empty `{Unicode} (isfile : list N -> bool)
    (today pdf_dir path_tsv path_bib path_html : pystr) :
  main isfile today [] [] pdf_dir path_tsv path_bib path_html =
  (ToCsv path_tsv [] :: Open path_bib :: Close path_bib
   :: Open path_html
   :: Write path_html (Str (py "<html>" ++ [newline]))
   :: flat_map (fun kv =>
        [Write path_html (Str (py "<h3>" ++ kv.2 ++ py "</h3>" ++ [newline]));
         Write path_html (Str (py "<ul>" ++ [newline]));
         Write path_html (Str (py "</ul>" ++ [newline]))]) types
   ++ [Write path_html (Str (py "<footer>" ++ [newline]));
       Write path_html (Str (py "last update: " ++ today ++ [newline]));
       Write path_html (Str (py "</footer>" ++ [newline]));
       Write path_html (Str (py "</html>"));
       Close path_html],
   Ok tt).
Proof. vm_compute. reflexivity. Qed.

(** ** More on page ranges and citations *)

Lemma span_len_head_false (p : char -> bool) (b : char) (t : pystr) :
  span_len p (b :: t) = O -> p b = false.
Proof. simpl. by destruct (p b). Qed.

Lemma scan_no_match_no_dash (x : pystr) :
  m_pages x = None ->
  span_len isdash
    (map (fun c : N => if hyphen =? c then endash else c)
       (re_sub m_pages (py "-") x)) = O.
Proof.
  destruct x as [|c x]; [done|]. intros Hm.
  pose proof (m_pages_none_not_dash c x Hm) as Hd.
  rewrite re_sub_nomatch, map_cons, to_endash_not_dash by done.
  simpl. by rewrite Hd.
Qed.

Lemma space_by_dash_cons (a b : char) (t : pystr) :
  space_by_dash (a :: b :: t) =
  (isspace a && (b =? endash)) || ((a =? endash) && isspace b)
  || space_by_dash (b :: t).
Proof. reflexivity. Qed.

Lemma pages_scan_tight (n : nat) (x : pystr) :
  (length x <= n)%nat ->
  space_by_dash
    (map (fun c : N => if hyphen =? c then endash else c)
       (re_sub m_pages (py "-") x)) = false.
Proof.
  revert x. induction n as [|n IH]; intros [|c x] Hlen;
    try done; simpl in Hlen; [lia|].
  destruct (m_pages (c :: x)) as [[|k]|] eqn:Hm.
  - by apply m_pages_pos in Hm.
  - rewrite (re_sub_match _ _ c x k Hm).
    set (y := drop k x).
    change (map ?f (py "-" ++ ?l)) with (endash :: map f l).
    assert (Hy : span_len isspace y = O)
      by apply (m_pages_rest (c :: x) (S k) Hm).
    apply scan_keeps_plain_start in Hy.
    assert (Ht : space_by_dash
      (map (fun c : N => if hyphen =? c then endash else c)
         (re_sub m_pages (py "-") y)) = false).
    { apply IH. unfold y. rewrite length_drop. lia. }
    destruct (map _ (re_sub m_pages (py "-") y)) as [|b t]; [done|].
    rewrite space_by_dash_cons, Ht.
    apply span_len_head_false in Hy. rewrite Hy.
    change (isspace endash) with false. by rewrite andb_false_r.
  - pose proof (m_pages_none_not_dash c x Hm) as Hd.
    rewrite re_sub_nomatch, map_cons, to_endash_not_dash by done.
    assert (Ht : space_by_dash
      (map (fun c : N => if hyphen =? c then endash else c)
         (re_sub m_pages (py "-") x)) = false) by (apply IH; lia).
    assert (Hhead : isspace c = true ->
      span_len isdash
        (map (fun c : N => if hyphen =? c then endash else c)
           (re_sub m_pages (py "-") x)) = O).
    { intros Hs. apply scan_no_match_no_dash.
      rewrite m_pages_space_cons in Hm by done.
      by destruct (m_pages x). }
    destruct (map _ (re_sub m_pages (py "-") x)) as [|b t]; [done|].
    rewrite space_by_dash_cons, Ht.
    assert (Hce : (c =? endash) = false).
    { unfold isdash in Hd. by apply orb_false_iff in Hd as [_ Hd]. }
    rewrite Hce. simpl andb at 2. rewrite !orb_false_r.
    destruct (isspace c) eqn:Hs; [|done].
    specialize (Hhead eq_refl). apply span_len_head_false in Hhead.
    unfold isdash in Hhead. by apply orb_false_iff in Hhead as [_ ->].
Qed.

(** X10.  In a normalised [pages] value no white space stands next to
    an en-dash: the white space on both sides of a run of dashes goes
    with the run. *)
Theorem pages_tight (v : pystr) : space_by_dash (formatter_pages v) = false.
Proof.
  unfold formatter_pages. rewrite re_sub_hyphen.
  apply (pages_scan_tight (length v)). lia.
Qed.

(** *** The end of a citation *)

Lemma str_replace_snoc (a : char) (old new x : pystr) (c : char) :
  forallb (fun d => negb (c =? d)) (a :: old) = true ->
  str_replace (a :: old) new (x ++ [c]) = str_replace (a :: old) new x ++ [c].
Proof.
  intros Hc. unfold str_replace, re_sub.
  rewrite replace_app_sep by (done || lia). reflexivity.
Qed.

Lemma unescape_snoc (x : pystr) (c : char) :
  c <> 96 -> c <> 39 -> c <> 92 -> c <> 95 -> c <> 38 ->
  unescape (x ++ [c]) = unescape x ++ [c].
Proof.
  intros H1 H2 H3 H4 H5. unfold unescape.
  apply N.eqb_neq in H1, H2, H3, H4, H5.
  change (py "``") with [96; 96]. change (py "''") with [39; 39].
  change (py "\_") with [92; 95]. change (py "\&") with [92; 38].
  rewrite !str_replace_snoc; [done | ..]; simpl;
    rewrite ?H1, ?H2, ?H3, ?H4, ?H5; done.
Qed.

(** X11.  Every citation that [bibtex2html] returns ends with the
    closing bracket of its link list and a newline: the substitutions at
    the end leave them in place. *)
Theorem citation_ends_line (isfile : list N -> bool) (e : entry)
    (pdf_dir : pystr) (tr : list event) (out : pystr) :
  bibtex2html isfile e pdf_dir = (tr, Ok out) ->
  exists text, out = text ++ py "]" ++ [newline].
Proof.
  intros Hout. unfold bibtex2html in Hout.
  destruct (dispatch e) as [body|[]]; try discriminate Hout.
  unfold lift, decorate, get in Hout.
  destruct (e !! py "ID") as [id|]; [|discriminate Hout].
  cbv beta iota zeta delta [mbind result_bind] in Hout.
  match type of Hout with
  | (_, Ok (unescape (?t ++ _))) = _ =>
    exists (unescape t); assert (Ht : out = unescape (t ++ py "]" ++ [newline]))
      by congruence
  end.
  rewrite Ht. change (py "]" ++ [newline]) with ([93] ++ [newline]).
  rewrite app_assoc, !unescape_snoc by py_neq. by rewrite <- app_assoc.
Qed.

Lemma citation_ends_line_witness :
  exists text,
    py "<u>Heinrich, P.</u> (2020). <b>a talk</b>. <i>Talk</i>. [<a href="
    ++ dquote :: py "bib/heinrich2020.bib" ++ dquote :: py ">bib</a>]"
    ++ [newline]
    = text ++ py "]" ++ [newline].
Proof.
  apply (citation_ends_line no_file e_misc (py "pdf/") []).
  vm_compute. reflexivity.
Defined.
